(** * Tool handlers of [function_app.py]

    A shallow embedding of the four MCP tool handlers ([hello_mcp],
    [mcp_get_stockprice], [mcp_get_weatheralerts], [mcp_get_weatherforecast])
    and of [format_alert], together with the Python builtins they call.

    Conventions.
    - A Python object that comes out of [json.loads] or [response.json()] is
      a [value].  A [dict] is an association list in insertion order, looked
      up from the front.
    - Text is a Stdlib [string] read as UTF-8.  The builtins modelled here
      ([str.upper], [str.strip], [repr], the escaping of [json.dumps]) follow
      CPython on ASCII text; bytes above 127 are carried through unchanged.
    - A [float] is carried with the text CPython prints for it.
    - A handler is a computation in the monad [M]: it may raise, it records
      every outbound call in [calls], and it keeps the local variables that
      the source inspects through [locals()].
    - Everything outside the repository is a field of [world]: the JSON
      decoder, the HTTP service, the quote provider and the clock. *)

From Stdlib Require Import String Ascii List ZArith Bool Arith Lia.
From Stdlib Require Import DecimalString.
Import ListNotations.
Local Open Scope list_scope.
Local Open Scope string_scope.
Set Warnings "-register-all".

(** ** Text *)

Module Text.

Definition nl : string := String "010"%char EmptyString.
Definition dquote : string := String "034"%char EmptyString.

Fixpoint join (sep : string) (parts : list string) : string :=
  match parts with
  | [] => ""
  | [p] => p
  | p :: rest => p ++ sep ++ join sep rest
  end.

(** [c.isspace()] on ASCII: tab, LF, VT, FF, CR, FS, GS, RS, US and space. *)
Definition is_space (c : ascii) : bool :=
  let n := nat_of_ascii c in
  ((9 <=? n)%nat && (n <=? 13)%nat) || ((28 <=? n)%nat && (n <=? 32)%nat).

Definition upper_char (c : ascii) : ascii :=
  let n := nat_of_ascii c in
  if ((97 <=? n)%nat && (n <=? 122)%nat) then ascii_of_nat (n - 32) else c.

(** [s.upper()] *)
Fixpoint upper (s : string) : string :=
  match s with
  | EmptyString => EmptyString
  | String c s' => String (upper_char c) (upper s')
  end.

Fixpoint lstrip (s : string) : string :=
  match s with
  | EmptyString => EmptyString
  | String c s' => if is_space c then lstrip s' else s
  end.

Fixpoint rstrip (s : string) : string :=
  match s with
  | EmptyString => EmptyString
  | String c s' =>
      match rstrip s' with
      | EmptyString => if is_space c then EmptyString else String c EmptyString
      | r => String c r
      end
  end.

(** [s.strip()] *)
Definition strip (s : string) : string := rstrip (lstrip s).

(** [needle in hay] on two [str]. *)
Fixpoint contains (needle hay : string) : bool :=
  if prefix needle hay then true
  else match hay with
       | EmptyString => false
       | String _ hay' => contains needle hay'
       end.

Definition is_empty (s : string) : bool :=
  match s with EmptyString => true | _ => false end.

Fixpoint mem_char (c : ascii) (s : string) : bool :=
  match s with
  | EmptyString => false
  | String d s' => Ascii.eqb c d || mem_char c s'
  end.

Definition hex_digit (n : nat) : ascii :=
  if (n <? 10)%nat then ascii_of_nat (48 + n) else ascii_of_nat (87 + n).

Definition hex2 (c : ascii) : string :=
  let n := nat_of_ascii c in
  String (hex_digit (n / 16)) (String (hex_digit (n mod 16)) EmptyString).

Definition of_Z (z : Z) : string := NilZero.string_of_int (Z.to_int z).

Fixpoint spaces (n : nat) : string :=
  match n with
  | O => EmptyString
  | S k => String " "%char (spaces k)
  end.

End Text.

(** ** Python values, exceptions and builtins *)

Module Py.
Import Text.

(** A [float], with the text of [repr(x)] for a finite one. *)
Inductive pyfloat : Type :=
| FNaN
| FInf (negative : bool)
| FFinite (text : string) (nonzero : bool).

Inductive value : Type :=
| VNone
| VBool (b : bool)
| VInt (z : Z)
| VFloat (f : pyfloat)
| VStr (s : string)
| VList (items : list value)
| VDict (entries : list (string * value)).

Inductive exn_class : Type :=
| JSONDecodeError
| AttributeError
| KeyError
| TypeError
| OtherException (name : string).

(** An exception object: its class and [str(e)]. *)
Record exn : Type := Exn { exn_cls : exn_class; exn_str : string }.

Inductive outcome (A : Type) : Type :=
| Return (a : A)
| Raise (e : exn).
Arguments Return {A} a.
Arguments Raise {A} e.

Definition is_decode_error (e : exn) : bool :=
  match exn_cls e with JSONDecodeError => true | _ => false end.

(** [type(v).__name__] *)
Definition type_name (v : value) : string :=
  match v with
  | VNone => "NoneType"
  | VBool _ => "bool"
  | VInt _ => "int"
  | VFloat _ => "float"
  | VStr _ => "str"
  | VList _ => "list"
  | VDict _ => "dict"
  end.

(** [bool(v)] *)
Definition truthy (v : value) : bool :=
  match v with
  | VNone => false
  | VBool b => b
  | VInt z => negb (Z.eqb z 0)
  | VFloat (FFinite _ nz) => nz
  | VFloat _ => true
  | VStr s => negb (is_empty s)
  | VList items => match items with [] => false | _ => true end
  | VDict entries => match entries with [] => false | _ => true end
  end.

Definition float_str (f : pyfloat) : string :=
  match f with
  | FNaN => "nan"
  | FInf false => "inf"
  | FInf true => "-inf"
  | FFinite t _ => t
  end.

Definition repr_char (quote c : ascii) : string :=
  let n := nat_of_ascii c in
  if Ascii.eqb c quote || Ascii.eqb c "\"%char then String "\"%char (String c EmptyString)
  else if (n =? 9)%nat then "\t"
  else if (n =? 10)%nat then "\n"
  else if (n =? 13)%nat then "\r"
  else if (n <? 32)%nat || (n =? 127)%nat then "\x" ++ hex2 c
  else String c EmptyString.

Fixpoint repr_chars (quote : ascii) (s : string) : string :=
  match s with
  | EmptyString => EmptyString
  | String c s' => repr_char quote c ++ repr_chars quote s'
  end.

(** [repr(s)] for a [str]: single quotes, unless the text has a single
    quote and no double quote. *)
Definition repr_str (s : string) : string :=
  let quote :=
    if mem_char "'"%char s && negb (mem_char "034"%char s)
    then "034"%char else "'"%char in
  String quote (repr_chars quote s) ++ String quote EmptyString.

(** [repr(v)] *)
Fixpoint repr (v : value) : string :=
  match v with
  | VNone => "None"
  | VBool true => "True"
  | VBool false => "False"
  | VInt z => of_Z z
  | VFloat f => float_str f
  | VStr s => repr_str s
  | VList items => "[" ++ join ", " (map repr items) ++ "]"
  | VDict entries =>
      "{" ++ join ", " (map (fun '(k, x) => repr_str k ++ ": " ++ repr x) entries) ++ "}"
  end.

(** [str(v)], which is also what an f-string field [{v}] prints. *)
Definition str (v : value) : string :=
  match v with
  | VStr s => s
  | _ => repr v
  end.

Fixpoint lookup (key : string) (entries : list (string * value)) : option value :=
  match entries with
  | [] => None
  | (k, x) :: rest => if String.eqb k key then Some x else lookup key rest
  end.

Definition no_attribute (v : value) (attr : string) : exn :=
  Exn AttributeError ("'" ++ type_name v ++ "' object has no attribute '" ++ attr ++ "'").

(** [obj.get(key, default)] *)
Definition get (obj : value) (key : string) (default : value) : outcome value :=
  match obj with
  | VDict entries =>
      match lookup key entries with
      | Some x => Return x
      | None => Return default
      end
  | _ => Raise (no_attribute obj "get")
  end.

(** [obj[key]] with a [str] key. *)
Definition getitem (obj : value) (key : string) : outcome value :=
  match obj with
  | VDict entries =>
      match lookup key entries with
      | Some x => Return x
      | None => Raise (Exn KeyError (repr_str key))
      end
  | VList _ => Raise (Exn TypeError "list indices must be integers or slices, not str")
  | VStr _ => Raise (Exn TypeError "string indices must be integers, not 'str'")
  | _ => Raise (Exn TypeError ("'" ++ type_name obj ++ "' object is not subscriptable"))
  end.

Definition is_str (key : string) (v : value) : bool :=
  match v with
  | VStr s => String.eqb s key
  | _ => false
  end.

(** [key in obj] with a [str] key. *)
Definition contains_key (key : string) (obj : value) : outcome bool :=
  match obj with
  | VDict entries =>
      Return (match lookup key entries with Some _ => true | None => false end)
  | VList items => Return (existsb (is_str key) items)
  | VStr s => Return (contains key s)
  | _ => Raise (Exn TypeError ("argument of type '" ++ type_name obj ++ "' is not iterable"))
  end.

Fixpoint chars (s : string) : list value :=
  match s with
  | EmptyString => []
  | String c s' => VStr (String c EmptyString) :: chars s'
  end.

(** The items that [for x in obj[:n]] visits. *)
Definition iter_prefix (n : nat) (obj : value) : outcome (list value) :=
  match obj with
  | VList items => Return (firstn n items)
  | VStr s => Return (firstn n (chars s))
  | VDict _ => Raise (Exn TypeError "unhashable type: 'slice'")
  | _ => Raise (Exn TypeError ("'" ++ type_name obj ++ "' object is not subscriptable"))
  end.

(** The items that [for x in obj] visits. *)
Definition iter (obj : value) : outcome (list value) :=
  match obj with
  | VList items => Return items
  | VStr s => Return (chars s)
  | VDict entries => Return (map (fun kv => VStr (fst kv)) entries)
  | _ => Raise (Exn TypeError ("'" ++ type_name obj ++ "' object is not iterable"))
  end.

(** [obj.upper()] *)
Definition upper (obj : value) : outcome string :=
  match obj with
  | VStr s => Return (Text.upper s)
  | _ => Raise (no_attribute obj "upper")
  end.

End Py.

(** ** [json.dumps] and a decoder for the examples *)

Module Json.
Import Text Py.

Definition escape_char (c : ascii) : string :=
  let n := nat_of_ascii c in
  if (n =? 34)%nat then "\" ++ dquote
  else if (n =? 92)%nat then "\\"
  else if (n =? 10)%nat then "\n"
  else if (n =? 13)%nat then "\r"
  else if (n =? 9)%nat then "\t"
  else if (n =? 12)%nat then "\f"
  else if (n =? 8)%nat then "\b"
  else if (n <? 32)%nat || (n =? 127)%nat then "\u00" ++ hex2 c
  else String c EmptyString.

Fixpoint escape (s : string) : string :=
  match s with
  | EmptyString => EmptyString
  | String c s' => escape_char c ++ escape s'
  end.

Definition quoted (s : string) : string := dquote ++ escape s ++ dquote.

Definition float_text (f : pyfloat) : string :=
  match f with
  | FNaN => "NaN"
  | FInf false => "Infinity"
  | FInf true => "-Infinity"
  | FFinite t _ => t
  end.

(** A non-empty container: on one line without [indent], one item per
    line with it. *)
Definition enclose (indent : option nat) (level : nat)
    (opener closer : string) (parts : list string) : string :=
  match indent with
  | None => opener ++ join ", " parts ++ closer
  | Some n =>
      opener ++ nl ++ spaces (n * S level)
        ++ join ("," ++ nl ++ spaces (n * S level)) parts
        ++ nl ++ spaces (n * level) ++ closer
  end.

Fixpoint dumps_at (indent : option nat) (level : nat) (v : value) : string :=
  match v with
  | VNone => "null"
  | VBool true => "true"
  | VBool false => "false"
  | VInt z => of_Z z
  | VFloat f => float_text f
  | VStr s => quoted s
  | VList [] => "[]"
  | VList items =>
      enclose indent level "[" "]" (map (dumps_at indent (S level)) items)
  | VDict [] => "{}"
  | VDict entries =>
      enclose indent level "{" "}"
        (map (fun '(k, x) => quoted k ++ ": " ++ dumps_at indent (S level) x) entries)
  end.

(** [json.dumps(v)] *)
Definition dumps (v : value) : string := dumps_at None 0 v.

(** [json.dumps(v, indent=n)] *)
Definition dumps_indent (n : nat) (v : value) : string := dumps_at (Some n) 0 v.

(** *** Decoder

    A decoder for the JSON texts of the examples below: objects, arrays,
    strings with the one-letter escapes, integers and the three literals.
    It does not read fractions, exponents or [\u] escapes. *)

Fixpoint skip_ws (s : string) : string :=
  match s with
  | String c s' =>
      let n := nat_of_ascii c in
      if (n =? 32)%nat || (n =? 9)%nat || (n =? 10)%nat || (n =? 13)%nat
      then skip_ws s' else s
  | EmptyString => EmptyString
  end.

Definition unescape (c : ascii) : option ascii :=
  let n := nat_of_ascii c in
  if (n =? 34)%nat || (n =? 92)%nat || (n =? 47)%nat then Some c
  else if (n =? 98)%nat then Some "008"%char
  else if (n =? 102)%nat then Some "012"%char
  else if (n =? 110)%nat then Some "010"%char
  else if (n =? 114)%nat then Some "013"%char
  else if (n =? 116)%nat then Some "009"%char
  else None.

(** The text after an opening quote, up to the closing one. *)
Fixpoint scan_string (s : string) : option (string * string) :=
  match s with
  | EmptyString => None
  | String c s' =>
      let n := nat_of_ascii c in
      if (n =? 34)%nat then Some (EmptyString, s')
      else if (n =? 92)%nat then
        match s' with
        | EmptyString => None
        | String e s'' =>
            match unescape e, scan_string s'' with
            | Some c', Some (t, rest) => Some (String c' t, rest)
            | _, _ => None
            end
        end
      else if (n <? 32)%nat then None
      else match scan_string s' with
           | Some (t, rest) => Some (String c t, rest)
           | None => None
           end
  end.

Definition digit (c : ascii) : option Z :=
  let n := nat_of_ascii c in
  if (48 <=? n)%nat && (n <=? 57)%nat then Some (Z.of_nat (n - 48)) else None.

Fixpoint scan_digits (acc : Z) (s : string) : Z * string :=
  match s with
  | String c s' =>
      match digit c with
      | Some d => scan_digits (10 * acc + d) s'
      | None => (acc, s)
      end
  | EmptyString => (acc, s)
  end.

Definition starts_fraction (s : string) : bool :=
  match s with
  | String c _ => Ascii.eqb c "."%char || Ascii.eqb c "e"%char || Ascii.eqb c "E"%char
  | EmptyString => false
  end.

(** An integer literal: [0], or a non-zero digit and more digits. *)
Definition scan_int (s : string) : option (Z * string) :=
  match s with
  | String c s' =>
      match digit c with
      | Some 0%Z => if starts_fraction s' then None else Some (0%Z, s')
      | Some d =>
          let '(z, rest) := scan_digits d s' in
          if starts_fraction rest then None else Some (z, rest)
      | None => None
      end
  | EmptyString => None
  end.

(** [d[k] = x] *)
Fixpoint dict_set (k : string) (x : value) (entries : list (string * value))
  : list (string * value) :=
  match entries with
  | [] => [(k, x)]
  | (k', x') :: rest =>
      if String.eqb k' k then (k', x) :: rest else (k', x') :: dict_set k x rest
  end.

Definition strip_prefix (p s : string) : option string :=
  if prefix p s then Some (substring (String.length p) (String.length s - String.length p) s) else None.

Fixpoint scan_value (fuel : nat) (s : string) : option (value * string) :=
  match fuel with
  | O => None
  | S fuel' =>
      match s with
      | EmptyString => None
      | String c s' =>
          let n := nat_of_ascii c in
          if (n =? 34)%nat then
            match scan_string s' with
            | Some (t, rest) => Some (VStr t, rest)
            | None => None
            end
          else if (n =? 123)%nat then
            match skip_ws s' with
            | String "}" rest => Some (VDict [], rest)
            | body => scan_members fuel' [] body
            end
          else if (n =? 91)%nat then
            match skip_ws s' with
            | String "]" rest => Some (VList [], rest)
            | body => scan_items fuel' [] body
            end
          else if (n =? 45)%nat then
            match scan_int s' with
            | Some (z, rest) => Some (VInt (- z), rest)
            | None => None
            end
          else
            match strip_prefix "null" s, strip_prefix "true" s, strip_prefix "false" s with
            | Some rest, _, _ => Some (VNone, rest)
            | _, Some rest, _ => Some (VBool true, rest)
            | _, _, Some rest => Some (VBool false, rest)
            | _, _, _ =>
                match scan_int s with
                | Some (z, rest) => Some (VInt z, rest)
                | None => None
                end
            end
      end
  end

with scan_items (fuel : nat) (acc : list value) (s : string)
  : option (value * string) :=
  match fuel with
  | O => None
  | S fuel' =>
      match scan_value fuel' s with
      | Some (x, rest) =>
          match skip_ws rest with
          | String "," rest' => scan_items fuel' (acc ++ [x])%list (skip_ws rest')
          | String "]" rest' => Some (VList (acc ++ [x])%list, rest')
          | _ => None
          end
      | None => None
      end
  end

with scan_members (fuel : nat) (acc : list (string * value)) (s : string)
  : option (value * string) :=
  match fuel with
  | O => None
  | S fuel' =>
      match s with
      | String "034" s' =>
          match scan_string s' with
          | Some (k, rest) =>
              match skip_ws rest with
              | String ":" rest' =>
                  match scan_value fuel' (skip_ws rest') with
                  | Some (x, rest'') =>
                      match skip_ws rest'' with
                      | String "," more =>
                          scan_members fuel' (dict_set k x acc) (skip_ws more)
                      | String "}" more => Some (VDict (dict_set k x acc), more)
                      | _ => None
                      end
                  | None => None
                  end
              | _ => None
              end
          | None => None
          end
      | _ => None
      end
  end.

(** The whole text must be one value between optional blanks. *)
Definition decode (s : string) : option value :=
  match scan_value (3 * S (String.length s)) (skip_ws s) with
  | Some (v, rest) =>
      match skip_ws rest with
      | EmptyString => Some v
      | _ => None
      end
  | None => None
  end.

(** Writes JSON text with single quotes standing for double quotes. *)
Fixpoint jtext (s : string) : string :=
  match s with
  | EmptyString => EmptyString
  | String c s' => String (if Ascii.eqb c "'"%char then "034"%char else c) (jtext s')
  end.

End Json.

(** ** Computations: exceptions, the call log and [locals()] *)

Module Run.
Import Text Py.

(** An outbound call: [client.get(url, ...)], or the quote provider asked
    for the snapshot of a symbol. *)
Inductive call : Type :=
| HttpGet (url : value)
| QuoteInfo (symbol : string).

Record frame : Type := Frame {
  calls : list call;
  locals : list (string * value)
}.

Definition M (A : Type) : Type := frame -> outcome A * frame.

Definition ret {A} (a : A) : M A := fun fr => (Return a, fr).

Definition raise {A} (e : exn) : M A := fun fr => (Raise e, fr).

Definition bind {A B} (m : M A) (k : A -> M B) : M B :=
  fun fr =>
    match m fr with
    | (Return a, fr') => k a fr'
    | (Raise e, fr') => (Raise e, fr')
    end.

(** A builtin that returns or raises. *)
Definition py {A} (o : outcome A) : M A := fun fr => (o, fr).

(** [try: body / except Exception as e: handler(e)] *)
Definition try_except {A} (body : M A) (handler : exn -> M A) : M A :=
  fun fr =>
    match body fr with
    | (Return a, fr') => (Return a, fr')
    | (Raise e, fr') => handler e fr'
    end.

Definition log (c : call) : M unit :=
  fun fr => (Return tt, Frame (calls fr ++ [c])%list (locals fr)).

(** How many outbound calls the invocation has made so far. *)
Definition calls_made : M nat :=
  fun fr => (Return (length (calls fr)), fr).

(** [name = v] *)
Definition assign (name : string) (v : value) : M unit :=
  fun fr => (Return tt, Frame (calls fr) ((name, v) :: locals fr)).

(** [locals().get(name)] *)
Definition local (name : string) : M (option value) :=
  fun fr => (Return (lookup name (locals fr)), fr).

Definition start : frame := Frame [] [].

(** What the host sees of one invocation. *)
Definition result {A} (m : M A) : outcome A := fst (m start).

(** The outbound calls of one invocation, in order. *)
Definition trace {A} (m : M A) : list call := calls (snd (m start)).

Fixpoint for_each {A B} (f : A -> M B) (xs : list A) : M (list B) :=
  match xs with
  | [] => ret []
  | x :: rest =>
      bind (f x) (fun y => bind (for_each f rest) (fun ys => ret (y :: ys)))
  end.

End Run.

Declare Scope run_scope.
Delimit Scope run_scope with run.
Notation "x <- m ;; k" := (Run.bind m (fun x => k))
  (at level 61, m at next level, right associativity) : run_scope.
Notation "m ;; k" := (Run.bind m (fun _ => k))
  (at level 61, right associativity) : run_scope.

(** ** Tool descriptors *)

Module ToolSchema.
Import Text Py Json.

(** [class ToolProperty] *)
Record ToolProperty : Type := MkToolProperty {
  propertyName : string;
  propertyType : string;
  description : string
}.

(** [ToolProperty.to_dict] *)
Definition to_dict (prop : ToolProperty) : value :=
  VDict [("propertyName", VStr (propertyName prop));
         ("propertyType", VStr (propertyType prop));
         ("description", VStr (description prop))].

(** [json.dumps([prop.to_dict() for prop in props])] *)
Definition properties_json (props : list ToolProperty) : string :=
  dumps (VList (map to_dict props)).

Definition tool_properties_get_stockprice_object : list ToolProperty :=
  [MkToolProperty "ticker" "string"
     "The ticker symbol of the company (e.g., AAPL for Apple, TSLA for Tesla)."].

Definition tool_properties_get_stockprice_json : string :=
  properties_json tool_properties_get_stockprice_object.

Definition tool_properties_get_state_object : list ToolProperty :=
  [MkToolProperty "state" "string" "State of weather alerts such as NJ or NY"].

Definition tool_properties_get_state_json : string :=
  properties_json tool_properties_get_state_object.

Definition tool_properties_get_latlong_object : list ToolProperty :=
  [MkToolProperty "latitude" "string" "The latitude of the location for weather";
   MkToolProperty "longitude" "string" "The langitude of the location for weather"].

Definition tool_properties_get_latlong_json : string :=
  properties_json tool_properties_get_latlong_object.

End ToolSchema.

(** ** The function app *)

Module FunctionApp.
Import Text Py Json Run.
Local Open Scope run_scope.

(** What the handlers reach outside the repository. *)
Record world : Type := World {
  (** [json.loads(text)] *)
  json_loads : string -> outcome value;
  (** [client.get(url, headers=..., timeout=30.0)], [raise_for_status()] and
      [response.json()] in a row, as the call number [n] (from 0) of the
      invocation: the document, or what one of them raised *)
  http_get_json : nat -> string -> outcome value;
  (** [yf.Ticker(symbol).info] *)
  ticker_info : string -> outcome value;
  (** [datetime.today().strftime('%Y-%m-%d')] *)
  today : string
}.

Definition NWS_API_BASE : string := "https://api.weather.gov".

Definition separator : string := nl ++ "---" ++ nl.

Section Handlers.

Variable w : world.

(** The body of the [try] around [client.get] in the two weather handlers.
    httpx refuses a URL that is not text with a [TypeError]. *)
Definition client_get_json (url : value) : M value :=
  n <- calls_made ;;
  log (HttpGet url) ;;
  match url with
  | VStr u => py (http_get_json w n u)
  | _ =>
      raise (Exn TypeError
        ("Invalid type for url.  Expected str or httpx.URL, got <class '"
           ++ type_name url ++ "'>: " ++ repr url))
  end.

(** [try: ... data = response.json() / except Exception: data = None] *)
Definition fetch (url : value) : M value :=
  try_except (client_get_json url) (fun _ => ret VNone).

(** [await make_nws_request(url)]: the same [try] in a function of its own. *)
Definition make_nws_request (url : string) : M value :=
  try_except (client_get_json (VStr url)) (fun _ => ret VNone).

Definition quote_info (symbol : string) : M value :=
  log (QuoteInfo symbol) ;;
  py (ticker_info w symbol).

Definition alert_block (event area severity description instruction : string) : string :=
  nl ++ "        Event: " ++ event
    ++ nl ++ "        Area: " ++ area
    ++ nl ++ "        Severity: " ++ severity
    ++ nl ++ "        Description: " ++ description
    ++ nl ++ "        Instructions: " ++ instruction
    ++ nl ++ "        ".

Definition format_alert (feature : value) : M string :=
  props <- py (getitem feature "properties") ;;
  event <- py (get props "event" (VStr "Unknown")) ;;
  area <- py (get props "areaDesc" (VStr "Unknown")) ;;
  severity <- py (get props "severity" (VStr "Unknown")) ;;
  description <- py (get props "description" (VStr "No description available")) ;;
  instruction <- py (get props "instruction" (VStr "No specific instructions provided")) ;;
  ret (alert_block (str event) (str area) (str severity) (str description)
         (str instruction)).

Definition hello_mcp (context : string) : M string :=
  ret "Hello I am MCPTool!".

Definition error_payload (message : string) : string :=
  dumps (VDict [("error", VStr message)]).

(** [mcp_get_stockprice] from the check of [info] on. *)
Definition stockprice_report (ticker_symbol : string) (info : value) : M string :=
  invalid <- (if negb (truthy info) then ret true
              else present <- py (contains_key "currentPrice" info) ;;
                   ret (negb present)) ;;
  if (invalid : bool) then
    ret (error_payload
           ("Unable to fetch stock data for ticker symbol: " ++ ticker_symbol
              ++ ". Please check if the symbol is valid."))
  else
    let date := today w in
    current_price <- py (get info "currentPrice" (VStr "N/A")) ;;
    day_low <- py (get info "dayLow" (VStr "N/A")) ;;
    day_high <- py (get info "dayHigh" (VStr "N/A")) ;;
    opening_price <- py (get info "open" (VStr "N/A")) ;;
    previous_close <- py (get info "previousClose" (VStr "N/A")) ;;
    market_cap <- py (get info "marketCap" (VStr "N/A")) ;;
    company_name <- py (get info "longName" (VStr ticker_symbol)) ;;
    ret (dumps_indent 2 (VDict [
           ("symbol", VStr ticker_symbol);
           ("date", VStr date);
           ("current_price", current_price);
           ("day_low", day_low);
           ("day_high", day_high);
           ("opening_price", opening_price);
           ("previous_close", previous_close);
           ("market_cap", market_cap);
           ("company_name", company_name);
           ("link", VStr ("https://finance.yahoo.com/quote/" ++ ticker_symbol ++ "/"))])).

(** The body of the [try] of [mcp_get_stockprice]. *)
Definition stockprice_try (context : string) : M string :=
  mcp_data <- py (json_loads w context) ;;
  args <- py (get mcp_data "arguments" (VDict [])) ;;
  ticker_symbol <- py (get args "ticker" VNone) ;;
  assign "ticker_symbol" ticker_symbol ;;
  if negb (truthy ticker_symbol) then
    ret (error_payload
           "No ticker symbol provided. Please provide a ticker symbol like TSLA, AAPL, etc.")
  else
    uppered <- py (upper ticker_symbol) ;;
    let ticker_symbol := strip uppered in
    assign "ticker_symbol" (VStr ticker_symbol) ;;
    info <- quote_info ticker_symbol ;;
    stockprice_report ticker_symbol info.

Definition stockprice_except (e : exn) : M string :=
  if is_decode_error e then
    ret (error_payload ("Invalid JSON context provided: " ++ exn_str e))
  else
    bound <- local "ticker_symbol" ;;
    let shown := match bound with
                 | Some ticker_symbol => str ticker_symbol
                 | None => "unknown ticker"
                 end in
    ret (error_payload ("Error fetching stock data for " ++ shown ++ ": " ++ exn_str e)).

Definition mcp_get_stockprice (context : string) : M string :=
  try_except (stockprice_try context) stockprice_except.

Definition alerts_url (state : value) : string :=
  NWS_API_BASE ++ "/alerts/active/area/" ++ str state.

Definition mcp_get_weatheralerts (context : string) : M string :=
  mcp_data <- py (json_loads w context) ;;
  args <- py (get mcp_data "arguments" (VDict [])) ;;
  state <- py (get args "state" VNone) ;;
  let url := alerts_url state in
  data <- fetch (VStr url) ;;
  unusable <- (if negb (truthy data) then ret true
               else present <- py (contains_key "features" data) ;;
                    ret (negb present)) ;;
  if (unusable : bool) then ret "Unable to fetch alerts or no alerts found."
  else
    features <- py (getitem data "features") ;;
    if negb (truthy features) then ret "No active alerts for this state."
    else
      features <- py (getitem data "features") ;;
      items <- py (iter features) ;;
      alerts <- for_each format_alert items ;;
      ret (join separator alerts).

Definition points_url (latitude longitude : value) : string :=
  NWS_API_BASE ++ "/points/" ++ str latitude ++ "," ++ str longitude.

Definition period_block (name temperature unit speed direction detailed : string) : string :=
  nl ++ "            " ++ name ++ ":"
    ++ nl ++ "            Temperature: " ++ temperature ++ "Â°" ++ unit
    ++ nl ++ "            Wind: " ++ speed ++ " " ++ direction
    ++ nl ++ "            Forecast: " ++ detailed
    ++ nl ++ "            ".

(** The f-string in the loop of [mcp_get_weatherforecast]. *)
Definition format_period (period : value) : M string :=
  name <- py (getitem period "name") ;;
  temperature <- py (getitem period "temperature") ;;
  unit <- py (getitem period "temperatureUnit") ;;
  speed <- py (getitem period "windSpeed") ;;
  direction <- py (getitem period "windDirection") ;;
  detailed <- py (getitem period "detailedForecast") ;;
  ret (period_block (str name) (str temperature) (str unit) (str speed)
         (str direction) (str detailed)).

Definition mcp_get_weatherforecast (context : string) : M string :=
  mcp_data <- py (json_loads w context) ;;
  args <- py (get mcp_data "arguments" (VDict [])) ;;
  latitude <- py (get args "latitude" VNone) ;;
  longitude <- py (get args "longitude" VNone) ;;
  let url := points_url latitude longitude in
  points_data <- fetch (VStr url) ;;
  if negb (truthy points_data) then
    ret "Unable to fetch forecast data for this location."
  else
    properties <- py (getitem points_data "properties") ;;
    forecast_url <- py (getitem properties "forecast") ;;
    forecast_data <- fetch forecast_url ;;
    if negb (truthy forecast_data) then ret "Unable to fetch detailed forecast."
    else
      properties <- py (getitem forecast_data "properties") ;;
      periods <- py (getitem properties "periods") ;;
      shown <- py (iter_prefix 5 periods) ;;
      forecasts <- for_each format_period shown ;;
      ret (join separator forecasts).

End Handlers.

End FunctionApp.

(** ** Vocabulary of the statements *)

Module Spec.
Import Text Py Json Run FunctionApp.

(** The argument map a handler works with: [json.loads(context)], then
    [.get("arguments", {})]. *)
Definition arguments_of (w : world) (context : string) : outcome value :=
  match json_loads w context with
  | Return mcp_data => get mcp_data "arguments" (VDict [])
  | Raise e => Raise e
  end.

(** [args.get(name)] on an argument map. *)
Definition argument (name : string) (args : list (string * value)) : value :=
  match lookup name args with
  | Some x => x
  | None => VNone
  end.

(** What the [fetch] number [n] leaves in [data]: the document, or [None]. *)
Definition fetched (w : world) (n : nat) (url : string) : value :=
  match http_get_json w n url with
  | Return data => data
  | Raise _ => VNone
  end.

(** A field of an alert: its text when present, [default] when absent. *)
Definition field (props : list (string * value)) (key default : string) : string :=
  match lookup key props with
  | Some x => str x
  | None => default
  end.

(** The block of an alert whose [properties] map is [props]. *)
Definition alert_text (props : list (string * value)) : string :=
  alert_block
    (field props "event" "Unknown")
    (field props "areaDesc" "Unknown")
    (field props "severity" "Unknown")
    (field props "description" "No description available")
    (field props "instruction" "No specific instructions provided").

(** [feature] is an object whose [properties] is the map [props]. *)
Definition has_properties (feature : value) (props : list (string * value)) : Prop :=
  getitem feature "properties" = Return (VDict props).

(** Ticker normalization in the spec's words: uppercase, then trim. *)
Definition normalize (ticker : string) : string := strip (Text.upper ticker).

(** A computation that makes no outbound call, wherever it starts. *)
Definition quiet {A} (m : M A) : Prop :=
  forall fr, calls (snd (m fr)) = calls fr.

(** [handler] makes no outbound call when [required] is missing from the
    argument map. *)
Definition validates_before_calling
    (handler : world -> string -> M string) (required : string) : Prop :=
  forall w context args,
    arguments_of w context = Return (VDict args) ->
    lookup required args = None ->
    trace (handler w context) = [].

(** The URL of step (a) of the forecast for an argument map. *)
Definition points_url_of (args : list (string * value)) : string :=
  points_url (argument "latitude" args) (argument "longitude" args).

(** [points_data["properties"]["forecast"]] *)
Definition forecast_link (points_data : value) : outcome value :=
  match getitem points_data "properties" with
  | Return properties => getitem properties "forecast"
  | Raise e => Raise e
  end.

(** [forecast_data["properties"]["periods"]] *)
Definition periods_of (forecast_data : value) : outcome value :=
  match getitem forecast_data "properties" with
  | Return properties => getitem properties "periods"
  | Raise e => Raise e
  end.

(** The block of a forecast period that has its six fields. *)
Definition period_text (p : list (string * value)) : option string :=
  match lookup "name" p, lookup "temperature" p, lookup "temperatureUnit" p,
        lookup "windSpeed" p, lookup "windDirection" p, lookup "detailedForecast" p with
  | Some name, Some temperature, Some unit, Some speed, Some direction, Some detailed =>
      Some (period_block (str name) (str temperature) (str unit) (str speed)
              (str direction) (str detailed))
  | _, _, _, _, _, _ => None
  end.

(** [period] is an object with the six fields, and [block] is its block. *)
Definition formats_as (period : value) (block : string) : Prop :=
  exists p, period = VDict p /\ period_text p = Some block.

(** A field of the quote record, or [default] when the record lacks it. *)
Definition quote_field (record : list (string * value)) (key : string)
    (default : value) : value :=
  match lookup key record with
  | Some x => x
  | None => default
  end.

(** The document [mcp_get_stockprice] reports for a quote record. *)
Definition stock_document (ticker date : string) (record : list (string * value))
  : value :=
  VDict [("symbol", VStr ticker);
         ("date", VStr date);
         ("current_price", quote_field record "currentPrice" (VStr "N/A"));
         ("day_low", quote_field record "dayLow" (VStr "N/A"));
         ("day_high", quote_field record "dayHigh" (VStr "N/A"));
         ("opening_price", quote_field record "open" (VStr "N/A"));
         ("previous_close", quote_field record "previousClose" (VStr "N/A"));
         ("market_cap", quote_field record "marketCap" (VStr "N/A"));
         ("company_name", quote_field record "longName" (VStr ticker));
         ("link", VStr ("https://finance.yahoo.com/quote/" ++ ticker ++ "/"))].

(** A character [json.dumps] writes as itself or with a one-letter escape:
    printable ASCII, backspace, tab, line feed, form feed, carriage
    return. *)
Definition plain_char (c : ascii) : bool :=
  let n := nat_of_ascii c in
  ((32 <=? n)%nat && (n <? 127)%nat)
  || (n =? 8)%nat || (n =? 9)%nat || (n =? 10)%nat || (n =? 12)%nat || (n =? 13)%nat.

Fixpoint plain (s : string) : bool :=
  match s with
  | EmptyString => true
  | String c s' => plain_char c && plain s'
  end.

(** The three texts of a tool property are plain. *)
Definition plain_property (prop : ToolSchema.ToolProperty) : Prop :=
  plain (ToolSchema.propertyName prop) = true /\
  plain (ToolSchema.propertyType prop) = true /\
  plain (ToolSchema.description prop) = true.

(** [isinstance(v, dict)] *)
Definition is_object (v : value) : bool :=
  match v with
  | VDict _ => true
  | _ => false
  end.

Definition is_lower (c : ascii) : bool :=
  let n := nat_of_ascii c in (97 <=? n)%nat && (n <=? 122)%nat.

(** Some character of the text is one of [a]..[z]. *)
Fixpoint has_lower (s : string) : bool :=
  match s with
  | EmptyString => false
  | String c s' => is_lower c || has_lower s'
  end.

Definition starts_with_space (s : string) : bool :=
  match s with
  | EmptyString => false
  | String c _ => is_space c
  end.

Fixpoint ends_with_space (s : string) : bool :=
  match s with
  | EmptyString => false
  | String c EmptyString => is_space c
  | String _ s' => ends_with_space s'
  end.

(** Every character of the text is white space. *)
Fixpoint all_space (s : string) : bool :=
  match s with
  | EmptyString => true
  | String c s' => is_space c && all_space s'
  end.

End Spec.

(** ** Stubs for the examples *)

Module Stub.
Import Text Py Json Run FunctionApp.

(** [json.loads] over [decode]; the message is the one CPython gives for a
    text that does not start with a value. *)
Definition loads (text : string) : outcome value :=
  match decode text with
  | Some v => Return v
  | None => Raise (Exn JSONDecodeError "Expecting value: line 1 column 1 (char 0)")
  end.

Definition timeout : outcome value :=
  Raise (Exn (OtherException "ReadTimeout") "The read operation timed out").

Definition no_quotes (symbol : string) : outcome value := Return (VDict []).

(** An alerts service: no answer for NJ, a document without [features]
    for NY, no alert for CA, [null] features for NV, one alert with only
    an event for TX. *)
Definition alerts_service (n : nat) (url : string) : outcome value :=
  if String.eqb url "https://api.weather.gov/alerts/active/area/NY" then
    Return (VDict [("title", VStr "alerts")])
  else if String.eqb url "https://api.weather.gov/alerts/active/area/CA" then
    Return (VDict [("features", VList [])])
  else if String.eqb url "https://api.weather.gov/alerts/active/area/NV" then
    Return (VDict [("features", VNone)])
  else if String.eqb url "https://api.weather.gov/alerts/active/area/TX" then
    Return (VDict [("features",
      VList [VDict [("properties", VDict [("event", VStr "Flood Watch")])];
             VDict [("properties", VDict [])]])])
  else timeout.

Definition alerts_world : world := World loads alerts_service no_quotes "2024-05-01".

Definition state_context (state : string) : string :=
  jtext "{'arguments': {'state': '" ++ state ++ jtext "'}}".

Definition ticker_context (ticker : string) : string :=
  jtext "{'arguments': {'ticker': '" ++ ticker ++ jtext "'}}".

(** A quote provider that knows AAPL only, and without a current price. *)
Definition stale_quotes (symbol : string) : outcome value :=
  if String.eqb symbol "AAPL" then Return (VDict [("longName", VStr "Apple Inc.")])
  else Return (VDict []).

Definition quotes_world : world := World loads alerts_service stale_quotes "2024-05-01".

Definition place_context (latitude longitude : string) : string :=
  jtext "{'arguments': {'latitude': '" ++ latitude
    ++ jtext "', 'longitude': '" ++ longitude ++ jtext "'}}".

Definition day (n : nat) : string := "Day " ++ of_Z (Z.of_nat n).

Definition period (n : nat) : value :=
  VDict [("name", VStr (day n));
         ("temperature", VInt (60 + Z.of_nat n));
         ("temperatureUnit", VStr "F");
         ("windSpeed", VStr "5 mph");
         ("windDirection", VStr "NW");
         ("detailedForecast", VStr "Clear")].

Definition block (n : nat) : string :=
  period_block (day n) (of_Z (60 + Z.of_nat n)) "F" "5 mph" "NW" "Clear".

Definition points_document (link : string) : value :=
  VDict [("properties", VDict [("forecast", VStr link)])].

(** A forecast service: the points of (40,-74) lead to a forecast that
    times out, the points of (39,-77) to a forecast of twenty periods, and
    nothing else answers. *)
Definition forecast_service (n : nat) (url : string) : outcome value :=
  if String.eqb url "https://api.weather.gov/points/40,-74" then
    Return (points_document "https://api.weather.gov/gridpoints/OKX/1,1/forecast")
  else if String.eqb url "https://api.weather.gov/points/39,-77" then
    Return (points_document "https://api.weather.gov/gridpoints/LWX/2,2/forecast")
  else if String.eqb url "https://api.weather.gov/gridpoints/LWX/2,2/forecast" then
    Return (VDict [("properties", VDict [("periods", VList (map period (seq 1 20)))])])
  else timeout.

Definition forecast_world : world := World loads forecast_service no_quotes "2024-05-01".

(** A quote provider: a quote for AAPL without the day's range, an HTTP
    failure for MSFT, a body that is not JSON for TSLA, nothing else. *)
Definition live_quotes (symbol : string) : outcome value :=
  if String.eqb symbol "AAPL" then
    Return (VDict [("currentPrice", VFloat (FFinite "189.84" true));
                   ("open", VFloat (FFinite "187.0" true));
                   ("marketCap", VInt 2950000000000)])
  else if String.eqb symbol "MSFT" then
    Raise (Exn (OtherException "HTTPError") "429 Client Error: Too Many Requests")
  else if String.eqb symbol "TSLA" then
    Raise (Exn JSONDecodeError "Expecting value: line 1 column 1 (char 0)")
  else Return (VDict []).

Definition live_world : world := World loads alerts_service live_quotes "2024-05-01".

(** A forecast service with odd answers: a link that is a number for
    (1,1), no link for (2,2), a forecast without periods for (3,3), and
    for (4,4) a forecast whose second period has only a name. *)
Definition odd_forecast_service (n : nat) (url : string) : outcome value :=
  if String.eqb url "https://api.weather.gov/points/1,1" then
    Return (VDict [("properties", VDict [("forecast", VInt 7)])])
  else if String.eqb url "https://api.weather.gov/points/2,2" then
    Return (VDict [("properties", VDict [("county", VStr "Kent")])])
  else if String.eqb url "https://api.weather.gov/points/3,3" then
    Return (points_document "https://api.weather.gov/gridpoints/E/3,3/forecast")
  else if String.eqb url "https://api.weather.gov/gridpoints/E/3,3/forecast" then
    Return (VDict [("properties", VDict [("periods", VList [])])])
  else if String.eqb url "https://api.weather.gov/points/4,4" then
    Return (points_document "https://api.weather.gov/gridpoints/M/4,4/forecast")
  else if String.eqb url "https://api.weather.gov/gridpoints/M/4,4/forecast" then
    Return (VDict [("properties", VDict [("periods",
      VList [period 1; VDict [("name", VStr "Day 2")]; period 3])])])
  else timeout.

Definition odd_forecast_world : world :=
  World loads odd_forecast_service no_quotes "2024-05-01".

(** An alerts service whose second feature for ZZ has no [properties]. *)
Definition odd_alerts_service (n : nat) (url : string) : outcome value :=
  if String.eqb url "https://api.weather.gov/alerts/active/area/ZZ" then
    Return (VDict [("features",
      VList [VDict [("properties", VDict [("event", VStr "Frost Advisory")])];
             VDict [("id", VStr "urn:oid:2.49.0.1.840.0")]])])
  else timeout.

Definition odd_alerts_world : world :=
  World loads odd_alerts_service no_quotes "2024-05-01".

End Stub.

(** ** Properties *)

Module Properties.
Import Text Py Json Run FunctionApp Spec.

Lemma arguments_of_inv w context args :
  arguments_of w context = Return (VDict args) ->
  exists mcp_data,
    json_loads w context = Return mcp_data /\
    get mcp_data "arguments" (VDict []) = Return (VDict args).
Proof.
  unfold arguments_of. destruct (json_loads w context) as [mcp_data|e]; [|discriminate].
  intros H. now exists mcp_data.
Qed.

Lemma get_argument name args :
  get (VDict args) name VNone = Return (argument name args).
Proof. unfold get, argument. now destruct (lookup name args). Qed.

Lemma fetch_run w url fr :
  fetch w (VStr url) fr =
    (Return (fetched w (length (calls fr)) url),
     Frame (calls fr ++ [HttpGet (VStr url)])%list (locals fr)).
Proof.
  unfold fetch, try_except, client_get_json, calls_made, bind, log, py, fetched, ret.
  now destruct (http_get_json w (length (calls fr)) url).
Qed.

(** A [fetch] of something that is not text: the call is refused and
    [data] is [None]. *)
Lemma fetch_not_text w url fr :
  (forall u, url <> VStr u) ->
  fetch w url fr = (Return VNone, Frame (calls fr ++ [HttpGet url])%list (locals fr)).
Proof.
  intros H.
  unfold fetch, try_except, client_get_json, calls_made, bind, log, raise, ret.
  destruct url; try reflexivity. now destruct (H s).
Qed.

(** *** Weather alerts *)

(** The alerts handler from the fetch on, for an argument map [args]. *)
Lemma weatheralerts_unfold w context args :
  arguments_of w context = Return (VDict args) ->
  mcp_get_weatheralerts w context start =
    (let data := fetched w 0 (alerts_url (argument "state" args)) in
     unusable <- (if negb (truthy data) then ret true
                  else present <- py (contains_key "features" data) ;;
                       ret (negb present)) ;;
     if (unusable : bool) then ret "Unable to fetch alerts or no alerts found."
     else
       features <- py (getitem data "features") ;;
       if negb (truthy features) then ret "No active alerts for this state."
       else
         features <- py (getitem data "features") ;;
         items <- py (iter features) ;;
         alerts <- for_each format_alert items ;;
         ret (join separator alerts))%run
      (Frame [HttpGet (VStr (alerts_url (argument "state" args)))] []).
Proof.
  intros H. destruct (arguments_of_inv _ _ _ H) as (mcp_data & Hl & Hg).
  unfold mcp_get_weatheralerts, bind at 1, py at 1. rewrite Hl.
  unfold bind at 1, py at 1. rewrite Hg.
  unfold bind at 1, py at 1. rewrite get_argument.
  unfold bind at 1. rewrite fetch_run. reflexivity.
Qed.

Lemma alerts_no_data w context args :
  arguments_of w context = Return (VDict args) ->
  truthy (fetched w 0 (alerts_url (argument "state" args))) = false ->
  result (mcp_get_weatheralerts w context)
    = Return "Unable to fetch alerts or no alerts found.".
Proof.
  intros Ha Hd. unfold result. rewrite (weatheralerts_unfold _ _ _ Ha).
  cbv zeta. unfold bind. rewrite Hd. reflexivity.
Qed.

Lemma alerts_no_features w context args doc :
  arguments_of w context = Return (VDict args) ->
  fetched w 0 (alerts_url (argument "state" args)) = VDict doc ->
  lookup "features" doc = None ->
  result (mcp_get_weatheralerts w context)
    = Return "Unable to fetch alerts or no alerts found.".
Proof.
  intros Ha Hd Hf. unfold result. rewrite (weatheralerts_unfold _ _ _ Ha).
  cbv zeta. rewrite Hd. unfold bind, py, contains_key, ret.
  destruct (negb (truthy (VDict doc))); [reflexivity|].
  rewrite Hf. reflexivity.
Qed.

Lemma alerts_falsy_features w context args doc features :
  arguments_of w context = Return (VDict args) ->
  fetched w 0 (alerts_url (argument "state" args)) = VDict doc ->
  lookup "features" doc = Some features ->
  truthy features = false ->
  result (mcp_get_weatheralerts w context) = Return "No active alerts for this state.".
Proof.
  intros Ha Hd Hf Ht. unfold result. rewrite (weatheralerts_unfold _ _ _ Ha).
  cbv zeta. rewrite Hd. unfold bind, py, contains_key, getitem, ret.
  destruct doc as [|entry doc']; [discriminate|].
  cbn [truthy negb]. rewrite Hf. cbn [negb]. rewrite Ht. reflexivity.
Qed.

Lemma fetched_return w n url data :
  http_get_json w n url = Return data -> fetched w n url = data.
Proof. unfold fetched. now intros ->. Qed.

Lemma fetched_raise w n url e :
  http_get_json w n url = Raise e -> fetched w n url = VNone.
Proof. unfold fetched. now intros ->. Qed.

(** C3. In [mcp_get_weatheralerts], once the argument map is read: when
    the fetch yields no data (it raised, or the document is empty or
    [null]) or the document has no ["features"] field, the handler returns
    exactly "Unable to fetch alerts or no alerts found."; when ["features"]
    is present and is the empty list it returns exactly "No active alerts
    for this state.".  A transport failure and a missing ["features"] give
    the same first message. *)
Theorem alerts_unavailable_or_empty w context args :
  arguments_of w context = Return (VDict args) ->
  let url := alerts_url (argument "state" args) in
  let answer := result (mcp_get_weatheralerts w context) in
  (forall e, http_get_json w 0 url = Raise e ->
     answer = Return "Unable to fetch alerts or no alerts found.") /\
  (forall data, http_get_json w 0 url = Return data -> truthy data = false ->
     answer = Return "Unable to fetch alerts or no alerts found.") /\
  (forall doc, http_get_json w 0 url = Return (VDict doc) ->
     lookup "features" doc = None ->
     answer = Return "Unable to fetch alerts or no alerts found.") /\
  (forall doc, http_get_json w 0 url = Return (VDict doc) ->
     lookup "features" doc = Some (VList []) ->
     answer = Return "No active alerts for this state.").
Proof.
  intros Ha url answer. subst url answer. repeat split.
  - intros e He. apply (alerts_no_data _ _ _ Ha).
    now rewrite (fetched_raise _ _ _ _ He).
  - intros data Hd Ht. apply (alerts_no_data _ _ _ Ha).
    now rewrite (fetched_return _ _ _ _ Hd).
  - intros doc Hd Hf.
    exact (alerts_no_features _ _ _ _ Ha (fetched_return _ _ _ _ Hd) Hf).
  - intros doc Hd Hf.
    exact (alerts_falsy_features _ _ _ _ _ Ha (fetched_return _ _ _ _ Hd) Hf eq_refl).
Qed.

Lemma alerts_unavailable_or_empty_witness :
  result (mcp_get_weatheralerts Stub.alerts_world (Stub.state_context "NJ"))
    = Return "Unable to fetch alerts or no alerts found." /\
  result (mcp_get_weatheralerts Stub.alerts_world (Stub.state_context "NY"))
    = Return "Unable to fetch alerts or no alerts found." /\
  result (mcp_get_weatheralerts Stub.alerts_world (Stub.state_context "CA"))
    = Return "No active alerts for this state.".
Proof.
  split; [|split].
  - destruct (alerts_unavailable_or_empty Stub.alerts_world (Stub.state_context "NJ")
                [("state", VStr "NJ")] eq_refl) as (H & _).
    exact (H _ eq_refl).
  - destruct (alerts_unavailable_or_empty Stub.alerts_world (Stub.state_context "NY")
                [("state", VStr "NY")] eq_refl) as (_ & _ & H & _).
    exact (H _ eq_refl eq_refl).
  - destruct (alerts_unavailable_or_empty Stub.alerts_world (Stub.state_context "CA")
                [("state", VStr "CA")] eq_refl) as (_ & _ & _ & H).
    exact (H _ eq_refl eq_refl).
Defined.

(** C10. In [mcp_get_weatheralerts], when the fetched document binds
    ["features"] to any falsy value, an empty list or not ([null], [false],
    [0], an empty text or object), the handler returns "No active alerts
    for this state.". *)
Theorem alerts_falsy_features_no_alerts w context args doc features :
  arguments_of w context = Return (VDict args) ->
  http_get_json w 0 (alerts_url (argument "state" args)) = Return (VDict doc) ->
  lookup "features" doc = Some features ->
  truthy features = false ->
  result (mcp_get_weatheralerts w context) = Return "No active alerts for this state.".
Proof.
  intros Ha Hd Hf Ht.
  exact (alerts_falsy_features _ _ _ _ _ Ha (fetched_return _ _ _ _ Hd) Hf Ht).
Qed.

Lemma alerts_falsy_features_no_alerts_witness :
  result (mcp_get_weatheralerts Stub.alerts_world (Stub.state_context "NV"))
    = Return "No active alerts for this state.".
Proof.
  exact (alerts_falsy_features_no_alerts Stub.alerts_world (Stub.state_context "NV")
           [("state", VStr "NV")] [("features", VNone)] VNone
           eq_refl eq_refl eq_refl eq_refl).
Defined.

Lemma format_alert_run feature props fr :
  has_properties feature props ->
  format_alert feature fr = (Return (alert_text props), fr).
Proof.
  unfold has_properties, format_alert. intros H.
  unfold bind at 1, py at 1. rewrite H.
  unfold alert_text, field, bind, py, get, ret.
  destruct (lookup "event" props), (lookup "areaDesc" props),
    (lookup "severity" props), (lookup "description" props),
    (lookup "instruction" props); reflexivity.
Qed.

Lemma for_each_format_alert items propss fr :
  Forall2 has_properties items propss ->
  for_each format_alert items fr = (Return (map alert_text propss), fr).
Proof.
  intros H. induction H as [|feature props items propss Hf _ IH]; [reflexivity|].
  cbn [for_each map]. unfold bind at 1. rewrite (format_alert_run _ _ _ Hf).
  unfold bind at 1. rewrite IH. reflexivity.
Qed.

(** C8. In [mcp_get_weatheralerts], when the response has a non-empty
    ["features"] list of features that each carry a [properties] map,
    every feature becomes one block with its event, area, severity,
    description and instructions, an absent field being replaced by
    "Unknown" (event, area, severity), "No description available" or
    "No specific instructions provided" as [alert_text] spells out, and the
    blocks are joined, in order, with a line of three dashes. *)
Theorem alerts_blocks_joined w context args doc items propss :
  arguments_of w context = Return (VDict args) ->
  http_get_json w 0 (alerts_url (argument "state" args)) = Return (VDict doc) ->
  lookup "features" doc = Some (VList items) ->
  items <> [] ->
  Forall2 has_properties items propss ->
  separator = nl ++ "---" ++ nl /\
  result (mcp_get_weatheralerts w context)
    = Return (join separator (map alert_text propss)).
Proof.
  intros Ha Hd Hf Hne Hp. split; [reflexivity|].
  unfold result. rewrite (weatheralerts_unfold _ _ _ Ha).
  cbv zeta. rewrite (fetched_return _ _ _ _ Hd).
  unfold bind at 1. destruct doc as [|entry doc']; [discriminate|].
  cbn [truthy negb]. unfold bind at 1, py at 1, contains_key. rewrite Hf.
  unfold ret at 1. cbn [negb].
  unfold bind at 1, py at 1, getitem. rewrite Hf.
  destruct items as [|feature items']; [now destruct Hne|].
  cbn [truthy negb].
  unfold bind at 1, py at 1. unfold bind at 1, py at 1, iter.
  unfold bind at 1. rewrite (for_each_format_alert _ _ _ Hp). reflexivity.
Qed.

Lemma alerts_blocks_joined_witness :
  separator = nl ++ "---" ++ nl /\
  result (mcp_get_weatheralerts Stub.alerts_world (Stub.state_context "TX"))
    = Return (join separator
                [alert_text [("event", VStr "Flood Watch")]; alert_text []]).
Proof.
  refine (alerts_blocks_joined Stub.alerts_world (Stub.state_context "TX")
            [("state", VStr "TX")] _ _
            [[("event", VStr "Flood Watch")]; []]
            eq_refl eq_refl eq_refl _ _).
  - discriminate.
  - repeat constructor.
Defined.

(** *** Weather forecast *)

(** The forecast handler from the first fetch on. *)
Lemma weatherforecast_unfold w context args :
  arguments_of w context = Return (VDict args) ->
  mcp_get_weatherforecast w context start =
    (let points_data := fetched w 0 (points_url_of args) in
     if negb (truthy points_data) then
       ret "Unable to fetch forecast data for this location."
     else
       properties <- py (getitem points_data "properties") ;;
       forecast_url <- py (getitem properties "forecast") ;;
       forecast_data <- fetch w forecast_url ;;
       if negb (truthy forecast_data) then ret "Unable to fetch detailed forecast."
       else
         properties <- py (getitem forecast_data "properties") ;;
         periods <- py (getitem properties "periods") ;;
         shown <- py (iter_prefix 5 periods) ;;
         forecasts <- for_each format_period shown ;;
         ret (join separator forecasts))%run
      (Frame [HttpGet (VStr (points_url_of args))] []).
Proof.
  intros H. destruct (arguments_of_inv _ _ _ H) as (mcp_data & Hl & Hg).
  unfold mcp_get_weatherforecast, bind at 1, py at 1. rewrite Hl.
  unfold bind at 1, py at 1. rewrite Hg.
  unfold bind at 1, py at 1. rewrite get_argument.
  unfold bind at 1, py at 1. rewrite get_argument.
  unfold bind at 1. rewrite fetch_run. reflexivity.
Qed.

Lemma forecast_no_points w context args :
  arguments_of w context = Return (VDict args) ->
  truthy (fetched w 0 (points_url_of args)) = false ->
  result (mcp_get_weatherforecast w context)
    = Return "Unable to fetch forecast data for this location." /\
  trace (mcp_get_weatherforecast w context) = [HttpGet (VStr (points_url_of args))].
Proof.
  intros Ha Hd. unfold result, trace. rewrite (weatherforecast_unfold _ _ _ Ha).
  cbv zeta. rewrite Hd. split; reflexivity.
Qed.

(** From the second fetch on, for a points document with a forecast link. *)
Lemma forecast_second_step w context args link :
  arguments_of w context = Return (VDict args) ->
  truthy (fetched w 0 (points_url_of args)) = true ->
  forecast_link (fetched w 0 (points_url_of args)) = Return link ->
  mcp_get_weatherforecast w context start =
    (forecast_data <- fetch w link ;;
     if negb (truthy forecast_data) then ret "Unable to fetch detailed forecast."
     else
       properties <- py (getitem forecast_data "properties") ;;
       periods <- py (getitem properties "periods") ;;
       shown <- py (iter_prefix 5 periods) ;;
       forecasts <- for_each format_period shown ;;
       ret (join separator forecasts))%run
      (Frame [HttpGet (VStr (points_url_of args))] []).
Proof.
  intros Ha Ht Hl. rewrite (weatherforecast_unfold _ _ _ Ha). cbv zeta.
  rewrite Ht. cbn [negb]. unfold forecast_link in Hl.
  unfold bind at 1, py at 1.
  destruct (getitem (fetched w 0 (points_url_of args)) "properties") as [properties|e];
    [|discriminate].
  unfold bind at 1, py at 1. rewrite Hl. reflexivity.
Qed.

Lemma forecast_no_detail w context args url :
  arguments_of w context = Return (VDict args) ->
  truthy (fetched w 0 (points_url_of args)) = true ->
  forecast_link (fetched w 0 (points_url_of args)) = Return (VStr url) ->
  truthy (fetched w 1 url) = false ->
  result (mcp_get_weatherforecast w context)
    = Return "Unable to fetch detailed forecast." /\
  trace (mcp_get_weatherforecast w context)
    = [HttpGet (VStr (points_url_of args)); HttpGet (VStr url)].
Proof.
  intros Ha Ht Hl Hd. unfold result, trace.
  rewrite (forecast_second_step _ _ _ _ Ha Ht Hl).
  split; unfold bind at 1; rewrite fetch_run; cbn [calls length]; rewrite Hd;
    reflexivity.
Qed.

(** C4. In [mcp_get_weatherforecast], once the argument map is read: when
    the points call fails or returns no data, the handler returns exactly
    "Unable to fetch forecast data for this location." and the points call
    is its only call; when the points call returns a document with a
    forecast link and the call to that link fails, the handler returns
    exactly "Unable to fetch detailed forecast.". *)
Theorem forecast_failure_messages w context args :
  arguments_of w context = Return (VDict args) ->
  let first := points_url_of args in
  let answer := result (mcp_get_weatherforecast w context) in
  let made := trace (mcp_get_weatherforecast w context) in
  (forall e, http_get_json w 0 first = Raise e ->
     answer = Return "Unable to fetch forecast data for this location." /\
     made = [HttpGet (VStr first)]) /\
  (forall data, http_get_json w 0 first = Return data -> truthy data = false ->
     answer = Return "Unable to fetch forecast data for this location." /\
     made = [HttpGet (VStr first)]) /\
  (forall points second e,
     http_get_json w 0 first = Return points -> truthy points = true ->
     forecast_link points = Return (VStr second) ->
     http_get_json w 1 second = Raise e ->
     answer = Return "Unable to fetch detailed forecast." /\
     made = [HttpGet (VStr first); HttpGet (VStr second)]).
Proof.
  intros Ha first answer made. subst first answer made. split; [|split].
  - intros e He. apply (forecast_no_points _ _ _ Ha).
    now rewrite (fetched_raise _ _ _ _ He).
  - intros data Hd Ht. apply (forecast_no_points _ _ _ Ha).
    now rewrite (fetched_return _ _ _ _ Hd).
  - intros points second e Hp Ht Hl He.
    apply (forecast_no_detail w context args second Ha).
    + now rewrite (fetched_return _ _ _ _ Hp).
    + now rewrite (fetched_return _ _ _ _ Hp).
    + now rewrite (fetched_raise _ _ _ _ He).
Qed.

Lemma forecast_failure_messages_witness :
  (result (mcp_get_weatherforecast Stub.forecast_world (Stub.place_context "0" "0"))
     = Return "Unable to fetch forecast data for this location." /\
   trace (mcp_get_weatherforecast Stub.forecast_world (Stub.place_context "0" "0"))
     = [HttpGet (VStr "https://api.weather.gov/points/0,0")]) /\
  (result (mcp_get_weatherforecast Stub.forecast_world (Stub.place_context "40" "-74"))
     = Return "Unable to fetch detailed forecast." /\
   trace (mcp_get_weatherforecast Stub.forecast_world (Stub.place_context "40" "-74"))
     = [HttpGet (VStr "https://api.weather.gov/points/40,-74");
        HttpGet (VStr "https://api.weather.gov/gridpoints/OKX/1,1/forecast")]).
Proof.
  split.
  - destruct (forecast_failure_messages Stub.forecast_world (Stub.place_context "0" "0")
                [("latitude", VStr "0"); ("longitude", VStr "0")] eq_refl) as (H & _).
    exact (H _ eq_refl).
  - destruct (forecast_failure_messages Stub.forecast_world
                (Stub.place_context "40" "-74")
                [("latitude", VStr "40"); ("longitude", VStr "-74")] eq_refl)
      as (_ & _ & H).
    exact (H _ _ _ eq_refl eq_refl eq_refl eq_refl).
Defined.

Lemma format_period_run period block fr :
  formats_as period block -> format_period period fr = (Return block, fr).
Proof.
  intros (p & -> & H). unfold period_text in H.
  unfold format_period, bind, py, getitem, ret.
  destruct (lookup "name" p); [|discriminate].
  destruct (lookup "temperature" p); [|discriminate].
  destruct (lookup "temperatureUnit" p); [|discriminate].
  destruct (lookup "windSpeed" p); [|discriminate].
  destruct (lookup "windDirection" p); [|discriminate].
  destruct (lookup "detailedForecast" p); [|discriminate].
  now injection H as <-.
Qed.

Lemma for_each_format_period periods blocks fr :
  Forall2 formats_as periods blocks ->
  for_each format_period periods fr = (Return blocks, fr).
Proof.
  intros H. induction H as [|period block periods blocks Hf _ IH]; [reflexivity|].
  cbn [for_each]. unfold bind at 1. rewrite (format_period_run _ _ _ Hf).
  unfold bind at 1. rewrite IH. reflexivity.
Qed.

(** C7. In [mcp_get_weatherforecast], on a successful forecast response
    whose first five periods have their six fields, the handler formats
    the first five periods, in response order, and joins the blocks with
    a line of three dashes: there are at most five blocks, and exactly
    five when the response has more than five periods. *)
Theorem forecast_first_five_periods w context args points second forecast periods blocks :
  arguments_of w context = Return (VDict args) ->
  http_get_json w 0 (points_url_of args) = Return points ->
  truthy points = true ->
  forecast_link points = Return (VStr second) ->
  http_get_json w 1 second = Return forecast ->
  truthy forecast = true ->
  periods_of forecast = Return (VList periods) ->
  Forall2 formats_as (firstn 5 periods) blocks ->
  separator = nl ++ "---" ++ nl /\
  result (mcp_get_weatherforecast w context) = Return (join separator blocks) /\
  length blocks = Nat.min 5 (length periods) /\
  (5 < length periods -> length blocks = 5)%nat.
Proof.
  intros Ha Hp Ht Hl Hf Htf Hps Hb.
  assert (Hlen : length blocks = Nat.min 5 (length periods)).
  { rewrite <- (Forall2_length Hb). apply length_firstn. }
  split; [reflexivity|]. split; [|split; [exact Hlen|lia]].
  unfold result. rewrite (forecast_second_step w context args (VStr second) Ha).
  - unfold bind at 1. rewrite fetch_run. cbn [calls length].
    rewrite (fetched_return _ _ _ _ Hf), Htf.
    cbn [negb]. unfold periods_of in Hps.
    unfold bind at 1, py at 1.
    destruct (getitem forecast "properties") as [properties|e]; [|discriminate].
    unfold bind at 1, py at 1. rewrite Hps.
    unfold bind at 1, py at 1, iter_prefix.
    unfold bind at 1. rewrite (for_each_format_period _ _ _ Hb). reflexivity.
  - now rewrite (fetched_return _ _ _ _ Hp).
  - now rewrite (fetched_return _ _ _ _ Hp).
Qed.

Lemma forecast_first_five_periods_witness :
  separator = nl ++ "---" ++ nl /\
  result (mcp_get_weatherforecast Stub.forecast_world (Stub.place_context "39" "-77"))
    = Return (join separator (map Stub.block (seq 1 5))) /\
  length (map Stub.block (seq 1 5)) = Nat.min 5 (length (map Stub.period (seq 1 20))) /\
  (5 < length (map Stub.period (seq 1 20)) -> length (map Stub.block (seq 1 5)) = 5)%nat.
Proof.
  refine (forecast_first_five_periods Stub.forecast_world (Stub.place_context "39" "-77")
            [("latitude", VStr "39"); ("longitude", VStr "-77")]
            _ _ _ (map Stub.period (seq 1 20)) (map Stub.block (seq 1 5))
            eq_refl eq_refl eq_refl eq_refl eq_refl eq_refl eq_refl _).
  repeat constructor; eexists; split; reflexivity.
Defined.

(** *** Text *)

Lemma upper_char_idempotent c : upper_char (upper_char c) = upper_char c.
Proof. destruct c as [[] [] [] [] [] [] [] []]; reflexivity. Qed.

Lemma is_space_upper_char c : is_space (upper_char c) = is_space c.
Proof. destruct c as [[] [] [] [] [] [] [] []]; reflexivity. Qed.

Lemma upper_idempotent s : Text.upper (Text.upper s) = Text.upper s.
Proof.
  induction s as [|c s IH]; [reflexivity|].
  cbn [Text.upper]. now rewrite upper_char_idempotent, IH.
Qed.

Lemma lstrip_upper s : lstrip (Text.upper s) = Text.upper (lstrip s).
Proof.
  induction s as [|c s IH]; [reflexivity|].
  cbn [Text.upper lstrip]. rewrite is_space_upper_char.
  now destruct (is_space c).
Qed.

Lemma rstrip_upper s : rstrip (Text.upper s) = Text.upper (rstrip s).
Proof.
  induction s as [|c s IH]; [reflexivity|].
  cbn [Text.upper rstrip]. rewrite IH, is_space_upper_char.
  destruct (rstrip s); [|reflexivity].
  cbn [Text.upper]. now destruct (is_space c).
Qed.

Lemma strip_upper s : strip (Text.upper s) = Text.upper (strip s).
Proof. unfold strip. now rewrite lstrip_upper, rstrip_upper. Qed.

Lemma rstrip_idempotent s : rstrip (rstrip s) = rstrip s.
Proof.
  induction s as [|c s IH]; [reflexivity|].
  cbn [rstrip]. destruct (rstrip s) as [|d r] eqn:E.
  - destruct (is_space c) eqn:Ec; [reflexivity|]. cbn [rstrip]. now rewrite Ec.
  - change (rstrip (String c (String d r))) with
      (match rstrip (String d r) with
       | EmptyString => if is_space c then EmptyString else String c EmptyString
       | r' => String c r'
       end).
    now rewrite IH.
Qed.

(** A text left by [lstrip] is empty or starts with a visible character. *)
Lemma lstrip_head s :
  lstrip s = EmptyString \/
  exists c s', lstrip s = String c s' /\ is_space c = false.
Proof.
  induction s as [|c s IH]; [now left|].
  cbn [lstrip]. destruct (is_space c) eqn:E; [exact IH|].
  right. now exists c, s.
Qed.

Lemma rstrip_visible_head c s :
  is_space c = false -> rstrip (String c s) = String c (rstrip s).
Proof. intros E. cbn [rstrip]. rewrite E. now destruct (rstrip s). Qed.

Lemma strip_idempotent s : strip (strip s) = strip s.
Proof.
  unfold strip. destruct (lstrip_head s) as [E|(c & s' & E & Ec)]; rewrite E.
  - reflexivity.
  - rewrite (rstrip_visible_head _ _ Ec). cbn [lstrip]. rewrite Ec.
    rewrite (rstrip_visible_head _ _ Ec). now rewrite rstrip_idempotent.
Qed.

Lemma normalize_idempotent s : normalize (normalize s) = normalize s.
Proof.
  unfold normalize. now rewrite strip_upper, strip_idempotent, <- strip_upper,
    upper_idempotent.
Qed.

(** *** Computations without outbound calls *)

Lemma quiet_ret A (a : A) : quiet (ret a).
Proof. now intros fr. Qed.

Lemma quiet_raise A e : quiet (@raise A e).
Proof. now intros fr. Qed.

Lemma quiet_py A (o : outcome A) : quiet (py o).
Proof. now intros fr. Qed.

Lemma quiet_assign name v : quiet (assign name v).
Proof. now intros fr. Qed.

Lemma quiet_local name : quiet (local name).
Proof. now intros fr. Qed.

Lemma quiet_bind A B (m : M A) (k : A -> M B) :
  quiet m -> (forall a, quiet (k a)) -> quiet (bind m k).
Proof.
  intros Hm Hk fr. unfold bind. specialize (Hm fr).
  destruct (m fr) as [[a|e] fr']; cbn [snd] in *.
  - now rewrite Hk.
  - exact Hm.
Qed.

Lemma quiet_try_except A (body : M A) handler :
  quiet body -> (forall e, quiet (handler e)) -> quiet (try_except body handler).
Proof.
  intros Hb Hh fr. unfold try_except. specialize (Hb fr).
  destruct (body fr) as [[a|e] fr']; cbn [snd] in *.
  - exact Hb.
  - now rewrite Hh.
Qed.

Lemma quiet_for_each A B (f : A -> M B) xs :
  (forall x, quiet (f x)) -> quiet (for_each f xs).
Proof.
  intros Hf. induction xs as [|x xs IH]; cbn [for_each].
  - apply quiet_ret.
  - apply quiet_bind; [apply Hf|]. intros y.
    apply quiet_bind; [exact IH|]. intros ys. apply quiet_ret.
Qed.

Create HintDb quiet.
#[local] Hint Resolve quiet_ret quiet_raise quiet_py quiet_assign quiet_local : quiet.
#[local] Hint Extern 1 (quiet (let _ := _ in _)) => cbv zeta : quiet.

Ltac quiet_steps :=
  repeat first
    [ progress auto with quiet
    | apply quiet_bind; [|intro]
    | apply quiet_try_except; [|intro]
    | apply quiet_for_each; intro
    | match goal with
      | |- quiet (if ?b then _ else _) => destruct b
      | |- quiet (match ?x with _ => _ end) => destruct x
      end ].

Lemma quiet_format_alert feature : quiet (format_alert feature).
Proof. unfold format_alert. quiet_steps. Qed.

Lemma quiet_format_period period : quiet (format_period period).
Proof. unfold format_period. quiet_steps. Qed.

#[local] Hint Resolve quiet_format_alert quiet_format_period : quiet.

Lemma quiet_stockprice_except e : quiet (stockprice_except e).
Proof. unfold stockprice_except. quiet_steps. Qed.

(** *** Stock price *)

Lemma quiet_stockprice_report w ticker_symbol info :
  quiet (stockprice_report w ticker_symbol info).
Proof. unfold stockprice_report. quiet_steps. Qed.

(** The handler always hands a text back to the host. *)
Lemma stockprice_always_returns w context :
  exists text, result (mcp_get_stockprice w context) = Return text.
Proof.
  unfold result, mcp_get_stockprice, try_except.
  destruct (stockprice_try w context start) as [[text|e] fr].
  - now exists text.
  - unfold stockprice_except. destruct (is_decode_error e).
    + eexists. reflexivity.
    + unfold bind, local, ret. eexists. reflexivity.
Qed.

(** The [try] body up to the check of the ticker. *)
Lemma stockprice_try_unfold w context args :
  arguments_of w context = Return (VDict args) ->
  stockprice_try w context start =
    (let ticker_symbol := argument "ticker" args in
     if negb (truthy ticker_symbol) then
       ret (error_payload
              "No ticker symbol provided. Please provide a ticker symbol like TSLA, AAPL, etc.")
     else
       uppered <- py (upper ticker_symbol) ;;
       let ticker_symbol := strip uppered in
       assign "ticker_symbol" (VStr ticker_symbol) ;;
       info <- quote_info w ticker_symbol ;;
       stockprice_report w ticker_symbol info)%run
      (Frame [] [("ticker_symbol", argument "ticker" args)]).
Proof.
  intros H. destruct (arguments_of_inv _ _ _ H) as (mcp_data & Hl & Hg).
  unfold stockprice_try, bind at 1, py at 1. rewrite Hl.
  unfold bind at 1, py at 1. rewrite Hg.
  unfold bind at 1, py at 1. rewrite get_argument.
  reflexivity.
Qed.

Lemma stockprice_no_ticker w context args :
  arguments_of w context = Return (VDict args) ->
  truthy (argument "ticker" args) = false ->
  result (mcp_get_stockprice w context)
    = Return (error_payload
        "No ticker symbol provided. Please provide a ticker symbol like TSLA, AAPL, etc.") /\
  trace (mcp_get_stockprice w context) = [].
Proof.
  intros Ha Ht. unfold result, trace, mcp_get_stockprice, try_except.
  rewrite (stockprice_try_unfold _ _ _ Ha). cbv zeta. rewrite Ht.
  split; reflexivity.
Qed.

(** With a non-empty text as ticker the [try] body reaches the provider. *)
Lemma stockprice_reaches_provider w context args ticker :
  arguments_of w context = Return (VDict args) ->
  argument "ticker" args = VStr ticker ->
  ticker <> EmptyString ->
  stockprice_try w context start =
    (info <- py (ticker_info w (normalize ticker)) ;;
     stockprice_report w (normalize ticker) info)%run
      (Frame [QuoteInfo (normalize ticker)]
             [("ticker_symbol", VStr (normalize ticker));
              ("ticker_symbol", VStr ticker)]).
Proof.
  intros Ha Ht Hne. rewrite (stockprice_try_unfold _ _ _ Ha). cbv zeta.
  rewrite Ht. destruct ticker as [|c ticker']; [now destruct Hne|].
  reflexivity.
Qed.

Lemma stockprice_queries_normalized w context args ticker :
  arguments_of w context = Return (VDict args) ->
  argument "ticker" args = VStr ticker ->
  ticker <> EmptyString ->
  trace (mcp_get_stockprice w context) = [QuoteInfo (normalize ticker)].
Proof.
  intros Ha Ht Hne. unfold trace, mcp_get_stockprice, try_except.
  rewrite (stockprice_reaches_provider _ _ _ _ Ha Ht Hne).
  set (body := (info <- py (ticker_info w (normalize ticker)) ;;
                stockprice_report w (normalize ticker) info)%run).
  set (fr := Frame _ _).
  assert (Hq : quiet body).
  { unfold body. apply quiet_bind; [apply quiet_py|].
    intros info. apply quiet_stockprice_report. }
  specialize (Hq fr). destruct (body fr) as [[text|e] fr']; cbn [snd] in *.
  - exact Hq.
  - rewrite quiet_stockprice_except. exact Hq.
Qed.

(** C5. Ticker normalization (uppercase, then trim) is idempotent;
    [mcp_get_stockprice] asks the quote provider for the normalized ticker,
    and for the tickers "aapl", " AAPL " and "AAPL" it asks for exactly
    "AAPL". *)
Theorem ticker_normalization :
  (forall ticker, normalize (normalize ticker) = normalize ticker) /\
  (forall w context args ticker,
     arguments_of w context = Return (VDict args) ->
     argument "ticker" args = VStr ticker ->
     ticker <> EmptyString ->
     trace (mcp_get_stockprice w context) = [QuoteInfo (normalize ticker)]) /\
  (forall w context args ticker,
     arguments_of w context = Return (VDict args) ->
     argument "ticker" args = VStr ticker ->
     In ticker ["aapl"; " AAPL "; "AAPL"] ->
     trace (mcp_get_stockprice w context) = [QuoteInfo "AAPL"]).
Proof.
  split; [exact normalize_idempotent|]. split.
  - exact stockprice_queries_normalized.
  - intros w context args ticker Ha Ht Hin.
    assert (Hn : ticker <> EmptyString /\ normalize ticker = "AAPL").
    { cbn [In] in Hin.
      destruct Hin as [<-|[<-|[<-|[]]]]; (split; [discriminate|reflexivity]). }
    destruct Hn as (Hne & Hn).
    now rewrite (stockprice_queries_normalized _ _ _ _ Ha Ht Hne), Hn.
Qed.

Lemma ticker_normalization_witness :
  normalize (normalize " aapl ") = normalize " aapl " /\
  trace (mcp_get_stockprice Stub.quotes_world (Stub.ticker_context "aapl"))
    = [QuoteInfo "AAPL"] /\
  trace (mcp_get_stockprice Stub.quotes_world (Stub.ticker_context " AAPL "))
    = [QuoteInfo "AAPL"] /\
  trace (mcp_get_stockprice Stub.quotes_world (Stub.ticker_context "AAPL"))
    = [QuoteInfo "AAPL"].
Proof.
  destruct ticker_normalization as (Hidem & _ & Hthree).
  split; [exact (Hidem " aapl ")|]. split; [|split].
  - refine (Hthree Stub.quotes_world (Stub.ticker_context "aapl")
              [("ticker", VStr "aapl")] "aapl" eq_refl eq_refl _).
    cbn [In]. now left.
  - refine (Hthree Stub.quotes_world (Stub.ticker_context " AAPL ")
              [("ticker", VStr " AAPL ")] " AAPL " eq_refl eq_refl _).
    cbn [In]. now right; left.
  - refine (Hthree Stub.quotes_world (Stub.ticker_context "AAPL")
              [("ticker", VStr "AAPL")] "AAPL" eq_refl eq_refl _).
    cbn [In]. now right; right; left.
Defined.

(** C6. In [mcp_get_stockprice], for every ticker that reaches the
    provider, when the provider's info record is empty or absent, or is a
    record without ['currentPrice'], the handler returns (it does not
    raise) the JSON error object whose message names the normalized
    ticker. *)
Theorem stockprice_without_current_price w context args ticker info :
  arguments_of w context = Return (VDict args) ->
  argument "ticker" args = VStr ticker ->
  ticker <> EmptyString ->
  ticker_info w (normalize ticker) = Return info ->
  truthy info = false \/
    (exists record, info = VDict record /\ lookup "currentPrice" record = None) ->
  result (mcp_get_stockprice w context)
    = Return (dumps (VDict [("error", VStr
        ("Unable to fetch stock data for ticker symbol: " ++ normalize ticker
           ++ ". Please check if the symbol is valid."))])).
Proof.
  intros Ha Ht Hne Hi Hinfo. unfold result, mcp_get_stockprice, try_except.
  rewrite (stockprice_reaches_provider _ _ _ _ Ha Ht Hne).
  unfold bind at 1, py at 1. rewrite Hi. unfold stockprice_report.
  destruct Hinfo as [Hf|(record & -> & Hl)].
  - unfold bind at 1. rewrite Hf. reflexivity.
  - unfold bind at 1. destruct (negb (truthy (VDict record))); [reflexivity|].
    unfold bind at 1, py at 1, contains_key. rewrite Hl. reflexivity.
Qed.

Lemma stockprice_without_current_price_witness :
  result (mcp_get_stockprice Stub.quotes_world (Stub.ticker_context "aapl"))
    = Return (dumps (VDict [("error", VStr
        ("Unable to fetch stock data for ticker symbol: " ++ normalize "aapl"
           ++ ". Please check if the symbol is valid."))])).
Proof.
  refine (stockprice_without_current_price Stub.quotes_world
            (Stub.ticker_context "aapl") [("ticker", VStr "aapl")] "aapl"
            (VDict [("longName", VStr "Apple Inc.")]) eq_refl eq_refl _ eq_refl _).
  - discriminate.
  - right. eexists. split; reflexivity.
Defined.

(** C9. In [mcp_get_stockprice], when ["ticker"] is present and is a
    truthy value that is not text (a JSON number, say), the handler does
    not raise: the [AttributeError] of the normalization is caught and
    the handler returns a JSON object with an ["error"] key, without
    asking the provider. *)
Theorem stockprice_ticker_not_text w context args ticker :
  arguments_of w context = Return (VDict args) ->
  lookup "ticker" args = Some ticker ->
  truthy ticker = true ->
  (forall text, ticker <> VStr text) ->
  result (mcp_get_stockprice w context)
    = Return (dumps (VDict [("error", VStr
        ("Error fetching stock data for " ++ str ticker ++ ": '"
           ++ type_name ticker ++ "' object has no attribute 'upper'"))])) /\
  trace (mcp_get_stockprice w context) = [].
Proof.
  intros Ha Hl Ht Hn. unfold result, trace, mcp_get_stockprice, try_except.
  rewrite (stockprice_try_unfold _ _ _ Ha). cbv zeta.
  unfold argument. rewrite Hl, Ht. cbn [negb].
  destruct ticker; try (split; reflexivity).
  now destruct (Hn s).
Qed.

Lemma stockprice_ticker_not_text_witness :
  result (mcp_get_stockprice Stub.quotes_world (jtext "{'arguments': {'ticker': 5}}"))
    = Return (dumps (VDict [("error", VStr
        "Error fetching stock data for 5: 'int' object has no attribute 'upper'")])) /\
  trace (mcp_get_stockprice Stub.quotes_world (jtext "{'arguments': {'ticker': 5}}")) = [].
Proof.
  refine (stockprice_ticker_not_text Stub.quotes_world
            (jtext "{'arguments': {'ticker': 5}}") [("ticker", VInt 5)] (VInt 5)
            eq_refl eq_refl eq_refl _).
  discriminate.
Defined.

(** *** Missing arguments and malformed contexts *)

(** The alerts handler makes its one call whatever [state] is. *)
Lemma alerts_trace w context args :
  arguments_of w context = Return (VDict args) ->
  trace (mcp_get_weatheralerts w context)
    = [HttpGet (VStr (alerts_url (argument "state" args)))].
Proof.
  intros Ha. unfold trace. rewrite (weatheralerts_unfold _ _ _ Ha).
  match goal with |- calls (snd (?m ?fr)) = _ => assert (Hq : quiet m) end.
  { cbv zeta. quiet_steps. }
  now rewrite Hq.
Qed.

Lemma fetch_calls w url fr :
  exists data,
    fetch w url fr = (Return data, Frame (calls fr ++ [HttpGet url])%list (locals fr)).
Proof.
  destruct url; try (eexists; apply fetch_not_text; discriminate).
  eexists. apply fetch_run.
Qed.

(** The forecast handler makes the points call first, whatever
    [latitude] and [longitude] are. *)
Lemma forecast_trace_head w context args :
  arguments_of w context = Return (VDict args) ->
  exists rest,
    trace (mcp_get_weatherforecast w context)
      = HttpGet (VStr (points_url_of args)) :: rest.
Proof.
  intros Ha. unfold trace. rewrite (weatherforecast_unfold _ _ _ Ha). cbv zeta.
  destruct (negb (truthy (fetched w 0 (points_url_of args)))); [now exists []|].
  unfold bind at 1, py at 1.
  destruct (getitem (fetched w 0 (points_url_of args)) "properties") as [properties|e];
    [|now exists []].
  unfold bind at 1, py at 1.
  destruct (getitem properties "forecast") as [link|e]; [|now exists []].
  unfold bind at 1.
  destruct (fetch_calls w link (Frame [HttpGet (VStr (points_url_of args))] []))
    as (data & ->).
  exists [HttpGet link].
  match goal with |- calls (snd (?m ?fr)) = _ => assert (Hq : quiet m) end.
  { quiet_steps. }
  now rewrite Hq.
Qed.

(** C2, as the code has it.  When ["ticker"] is missing from the argument
    map, [mcp_get_stockprice] returns its error payload and makes no
    outbound call.  The two weather handlers do not validate: a missing
    argument is written as the text [None] into the URL and the HTTP GET
    is made all the same. *)
Theorem missing_argument_behaviour w context args :
  arguments_of w context = Return (VDict args) ->
  (lookup "ticker" args = None ->
     result (mcp_get_stockprice w context)
       = Return (dumps (VDict [("error", VStr
           "No ticker symbol provided. Please provide a ticker symbol like TSLA, AAPL, etc.")])) /\
     trace (mcp_get_stockprice w context) = []) /\
  (lookup "state" args = None ->
     trace (mcp_get_weatheralerts w context)
       = [HttpGet (VStr "https://api.weather.gov/alerts/active/area/None")]) /\
  (lookup "latitude" args = None -> lookup "longitude" args = None ->
     exists rest,
       trace (mcp_get_weatherforecast w context)
         = HttpGet (VStr "https://api.weather.gov/points/None,None") :: rest).
Proof.
  intros Ha. split; [|split].
  - intros Hl. apply (stockprice_no_ticker _ _ _ Ha).
    unfold argument. now rewrite Hl.
  - intros Hl. rewrite (alerts_trace _ _ _ Ha). unfold argument. now rewrite Hl.
  - intros Hlat Hlon. destruct (forecast_trace_head _ _ _ Ha) as (rest & ->).
    exists rest. unfold points_url_of, argument. now rewrite Hlat, Hlon.
Qed.

Lemma missing_argument_behaviour_witness :
  (result (mcp_get_stockprice Stub.alerts_world (jtext "{'arguments': {}}"))
     = Return (dumps (VDict [("error", VStr
         "No ticker symbol provided. Please provide a ticker symbol like TSLA, AAPL, etc.")])) /\
   trace (mcp_get_stockprice Stub.alerts_world (jtext "{'arguments': {}}")) = []) /\
  trace (mcp_get_weatheralerts Stub.alerts_world (jtext "{'arguments': {}}"))
    = [HttpGet (VStr "https://api.weather.gov/alerts/active/area/None")] /\
  exists rest,
    trace (mcp_get_weatherforecast Stub.alerts_world (jtext "{'arguments': {}}"))
      = HttpGet (VStr "https://api.weather.gov/points/None,None") :: rest.
Proof.
  destruct (missing_argument_behaviour Stub.alerts_world (jtext "{'arguments': {}}") []
              eq_refl) as (Hstock & Halerts & Hforecast).
  split; [exact (Hstock eq_refl)|].
  split; [exact (Halerts eq_refl)|exact (Hforecast eq_refl eq_refl)].
Defined.

(** C2 as stated fails for [mcp_get_weatheralerts]: with
    [{"arguments": {}}] as context, [state] is missing and the handler
    still makes the HTTP GET, to [.../alerts/active/area/None]. *)
Lemma missing_state_still_fetches :
  arguments_of Stub.alerts_world (jtext "{'arguments': {}}") = Return (VDict []) /\
  trace (mcp_get_weatheralerts Stub.alerts_world (jtext "{'arguments': {}}"))
    = [HttpGet (VStr "https://api.weather.gov/alerts/active/area/None")] /\
  ~ validates_before_calling mcp_get_weatheralerts "state".
Proof.
  split; [reflexivity|]. split; [reflexivity|].
  intros H.
  specialize (H Stub.alerts_world (jtext "{'arguments': {}}") [] eq_refl eq_refl).
  discriminate H.
Qed.

(** A context that [json.loads] rejects: the weather handlers let the
    exception through. *)
Lemma weather_handlers_propagate w context e :
  json_loads w context = Raise e ->
  result (mcp_get_weatheralerts w context) = Raise e /\
  result (mcp_get_weatherforecast w context) = Raise e.
Proof.
  intros H.
  unfold result, mcp_get_weatheralerts, mcp_get_weatherforecast, bind, py.
  now rewrite H.
Qed.

(** [hello_mcp] returns its greeting for every context. *)
Lemma hello_always_returns context :
  result (hello_mcp context) = Return "Hello I am MCPTool!" /\
  trace (hello_mcp context) = [].
Proof. split; reflexivity. Qed.

(** C1, at the context [not json]: [mcp_get_weatheralerts] and
    [mcp_get_weatherforecast] raise the [JSONDecodeError] of [json.loads]
    to the host, where [mcp_get_stockprice] returns an error payload. *)
Theorem weather_handlers_raise_on_malformed_context :
  result (mcp_get_weatheralerts Stub.alerts_world "not json")
    = Raise (Exn JSONDecodeError "Expecting value: line 1 column 1 (char 0)") /\
  result (mcp_get_weatherforecast Stub.alerts_world "not json")
    = Raise (Exn JSONDecodeError "Expecting value: line 1 column 1 (char 0)") /\
  result (mcp_get_stockprice Stub.alerts_world "not json")
    = Return (dumps (VDict [("error", VStr
        "Invalid JSON context provided: Expecting value: line 1 column 1 (char 0)")])).
Proof. repeat split. Qed.

End Properties.

(** ** Further behaviour of the handlers *)

Module Behaviour.
Import Text Py Json Run FunctionApp Spec Properties.

#[local] Hint Resolve quiet_ret quiet_raise quiet_py quiet_assign quiet_local
  quiet_format_alert quiet_format_period : quiet.

(** *** Stock price *)

Lemma stockprice_try_calls w context :
  exists made,
    calls (snd (stockprice_try w context start)) = made /\
    (made = [] \/ exists symbol, made = [QuoteInfo symbol]).
Proof.
  unfold stockprice_try.
  unfold bind at 1, py at 1.
  destruct (json_loads w context) as [mcp_data|e]; [|exists []; now split; [|left]].
  unfold bind at 1, py at 1.
  destruct (get mcp_data "arguments" (VDict [])) as [args|e];
    [|exists []; now split; [|left]].
  unfold bind at 1, py at 1.
  destruct (get args "ticker" VNone) as [ticker|e]; [|exists []; now split; [|left]].
  unfold bind at 1, assign at 1.
  destruct (negb (truthy ticker)); [exists []; now split; [|left]|].
  unfold bind at 1, py at 1.
  destruct (upper ticker) as [uppered|e]; [|exists []; now split; [|left]].
  cbv zeta. unfold bind at 1, assign at 1.
  exists [QuoteInfo (strip uppered)]. split; [|right; now exists (strip uppered)].
  unfold bind at 1, quote_info, bind at 1, log, py at 1. cbn [calls locals app].
  destruct (ticker_info w (strip uppered)) as [info|e]; [|reflexivity].
  now rewrite quiet_stockprice_report.
Qed.

(** X1. [mcp_get_stockprice] hands a text back for every context and
    every behaviour of the decoder and of the provider; it never makes an
    HTTP GET and asks the provider at most once. *)
Theorem stockprice_returns_after_one_query_at_most w context :
  (exists text, result (mcp_get_stockprice w context) = Return text) /\
  (trace (mcp_get_stockprice w context) = [] \/
   exists symbol, trace (mcp_get_stockprice w context) = [QuoteInfo symbol]).
Proof.
  split; [apply stockprice_always_returns|].
  assert (H : trace (mcp_get_stockprice w context)
              = calls (snd (stockprice_try w context start))).
  { unfold trace, mcp_get_stockprice, try_except.
    destruct (stockprice_try w context start) as [[text|e] fr]; [reflexivity|].
    cbn [snd]. apply quiet_stockprice_except. }
  rewrite H. destruct (stockprice_try_calls w context) as (made & -> & Hm).
  exact Hm.
Qed.

(** X2. When [json.loads] raises on the context, [mcp_get_stockprice]
    returns an error payload and asks nobody: "Invalid JSON context
    provided: ..." for a [JSONDecodeError], "Error fetching stock data for
    unknown ticker: ..." for any other exception. *)
Theorem stockprice_rejected_context w context e :
  json_loads w context = Raise e ->
  result (mcp_get_stockprice w context)
    = Return (dumps (VDict [("error", VStr
        (if is_decode_error e
         then "Invalid JSON context provided: " ++ exn_str e
         else "Error fetching stock data for unknown ticker: " ++ exn_str e))])) /\
  trace (mcp_get_stockprice w context) = [].
Proof.
  intros H.
  assert (Ht : stockprice_try w context start = (Raise e, start)).
  { unfold stockprice_try. unfold bind at 1, py at 1. now rewrite H. }
  unfold result, trace, mcp_get_stockprice, try_except. rewrite Ht.
  unfold stockprice_except. destruct (is_decode_error e); split; reflexivity.
Qed.

Lemma stockprice_rejected_context_witness :
  result (mcp_get_stockprice Stub.live_world "{ticker: AAPL}")
    = Return (dumps (VDict [("error", VStr
        "Invalid JSON context provided: Expecting value: line 1 column 1 (char 0)")])) /\
  trace (mcp_get_stockprice Stub.live_world "{ticker: AAPL}") = [].
Proof.
  exact (stockprice_rejected_context Stub.live_world "{ticker: AAPL}" _ eq_refl).
Defined.

(** X3. When the context decodes to something that is not an object, or
    its ["arguments"] is not an object, [mcp_get_stockprice] returns the
    error payload of the [AttributeError] on [.get], with the ticker
    reported as unknown, and asks nobody. *)
Theorem stockprice_context_not_an_object w context mcp_data culprit :
  json_loads w context = Return mcp_data ->
  culprit = mcp_data \/ get mcp_data "arguments" (VDict []) = Return culprit ->
  is_object culprit = false ->
  result (mcp_get_stockprice w context)
    = Return (dumps (VDict [("error", VStr
        ("Error fetching stock data for unknown ticker: '" ++ type_name culprit
           ++ "' object has no attribute 'get'"))])) /\
  trace (mcp_get_stockprice w context) = [].
Proof.
  intros Hl Hc Hn.
  assert (Ht : stockprice_try w context start
               = (Raise (no_attribute culprit "get"), start)).
  { unfold stockprice_try. unfold bind at 1, py at 1. rewrite Hl.
    unfold bind at 1, py at 1. destruct Hc as [->|Hg].
    - destruct mcp_data; try discriminate Hn; reflexivity.
    - rewrite Hg. unfold bind at 1, py at 1.
      destruct culprit; try discriminate Hn; reflexivity. }
  unfold result, trace, mcp_get_stockprice, try_except. rewrite Ht.
  split; reflexivity.
Qed.

Lemma stockprice_context_not_an_object_witness :
  (result (mcp_get_stockprice Stub.live_world (jtext "['AAPL']"))
     = Return (dumps (VDict [("error", VStr
         "Error fetching stock data for unknown ticker: 'list' object has no attribute 'get'")])) /\
   trace (mcp_get_stockprice Stub.live_world (jtext "['AAPL']")) = []) /\
  (result (mcp_get_stockprice Stub.live_world (jtext "{'arguments': 'AAPL'}"))
     = Return (dumps (VDict [("error", VStr
         "Error fetching stock data for unknown ticker: 'str' object has no attribute 'get'")])) /\
   trace (mcp_get_stockprice Stub.live_world (jtext "{'arguments': 'AAPL'}")) = []).
Proof.
  split.
  - exact (stockprice_context_not_an_object Stub.live_world (jtext "['AAPL']")
             (VList [VStr "AAPL"]) (VList [VStr "AAPL"])
             eq_refl (or_introl eq_refl) eq_refl).
  - exact (stockprice_context_not_an_object Stub.live_world
             (jtext "{'arguments': 'AAPL'}")
             (VDict [("arguments", VStr "AAPL")]) (VStr "AAPL")
             eq_refl (or_intror eq_refl) eq_refl).
Defined.

(** X4. A ticker that is present but falsy (an empty text, [0], [null],
    [false], an empty list or object) is treated like a missing one:
    [mcp_get_stockprice] returns the "No ticker symbol provided" payload
    and does not ask the provider. *)
Theorem stockprice_falsy_ticker w context args ticker :
  arguments_of w context = Return (VDict args) ->
  lookup "ticker" args = Some ticker ->
  truthy ticker = false ->
  result (mcp_get_stockprice w context)
    = Return (dumps (VDict [("error", VStr
        "No ticker symbol provided. Please provide a ticker symbol like TSLA, AAPL, etc.")])) /\
  trace (mcp_get_stockprice w context) = [].
Proof.
  intros Ha Hl Ht. apply (stockprice_no_ticker _ _ _ Ha).
  unfold argument. now rewrite Hl.
Qed.

Lemma stockprice_falsy_ticker_witness :
  result (mcp_get_stockprice Stub.live_world (Stub.ticker_context ""))
    = Return (dumps (VDict [("error", VStr
        "No ticker symbol provided. Please provide a ticker symbol like TSLA, AAPL, etc.")])) /\
  trace (mcp_get_stockprice Stub.live_world (Stub.ticker_context "")) = [].
Proof.
  exact (stockprice_falsy_ticker Stub.live_world (Stub.ticker_context "")
           [("ticker", VStr "")] (VStr "") eq_refl eq_refl eq_refl).
Defined.

Lemma lstrip_all_space s : all_space s = true -> lstrip s = EmptyString.
Proof.
  induction s as [|c s IH]; [reflexivity|].
  cbn [all_space lstrip]. destruct (is_space c); [exact IH|discriminate].
Qed.

Lemma all_space_upper s : all_space (Text.upper s) = all_space s.
Proof.
  induction s as [|c s IH]; [reflexivity|].
  cbn [Text.upper all_space]. now rewrite is_space_upper_char, IH.
Qed.

Lemma normalize_all_space s : all_space s = true -> normalize s = EmptyString.
Proof.
  intros H. unfold normalize, strip.
  rewrite lstrip_all_space; [reflexivity|]. now rewrite all_space_upper.
Qed.

(** X5. The ticker is checked before it is trimmed: a ticker made only of
    white space passes the check, and [mcp_get_stockprice] asks the
    provider for the empty symbol. *)
Theorem stockprice_blank_ticker_reaches_provider w context args ticker :
  arguments_of w context = Return (VDict args) ->
  argument "ticker" args = VStr ticker ->
  ticker <> EmptyString ->
  all_space ticker = true ->
  trace (mcp_get_stockprice w context) = [QuoteInfo EmptyString].
Proof.
  intros Ha Ht Hne Hs.
  rewrite (stockprice_queries_normalized _ _ _ _ Ha Ht Hne).
  now rewrite (normalize_all_space _ Hs).
Qed.

Lemma stockprice_blank_ticker_reaches_provider_witness :
  trace (mcp_get_stockprice Stub.live_world (Stub.ticker_context "   "))
    = [QuoteInfo EmptyString].
Proof.
  refine (stockprice_blank_ticker_reaches_provider Stub.live_world
            (Stub.ticker_context "   ") [("ticker", VStr "   ")] "   "
            eq_refl eq_refl _ eq_refl).
  discriminate.
Defined.

(** X6. When the quote provider raises, [mcp_get_stockprice] returns an
    error payload after its one query: "Error fetching stock data for
    <normalized ticker>: ..." in general, and "Invalid JSON context
    provided: ..." when what the provider raised is a [JSONDecodeError],
    although the context was decoded. *)
Theorem stockprice_provider_raises w context args ticker e :
  arguments_of w context = Return (VDict args) ->
  argument "ticker" args = VStr ticker ->
  ticker <> EmptyString ->
  ticker_info w (normalize ticker) = Raise e ->
  result (mcp_get_stockprice w context)
    = Return (dumps (VDict [("error", VStr
        (if is_decode_error e
         then "Invalid JSON context provided: " ++ exn_str e
         else "Error fetching stock data for " ++ normalize ticker ++ ": "
                ++ exn_str e))])) /\
  trace (mcp_get_stockprice w context) = [QuoteInfo (normalize ticker)].
Proof.
  intros Ha Ht Hne He.
  split; [|exact (stockprice_queries_normalized _ _ _ _ Ha Ht Hne)].
  unfold result, mcp_get_stockprice, try_except.
  rewrite (stockprice_reaches_provider _ _ _ _ Ha Ht Hne).
  unfold bind at 1, py at 1. rewrite He.
  unfold stockprice_except. destruct (is_decode_error e); reflexivity.
Qed.

Lemma stockprice_provider_raises_witness :
  (result (mcp_get_stockprice Stub.live_world (Stub.ticker_context "msft"))
     = Return (dumps (VDict [("error", VStr
         "Error fetching stock data for MSFT: 429 Client Error: Too Many Requests")])) /\
   trace (mcp_get_stockprice Stub.live_world (Stub.ticker_context "msft"))
     = [QuoteInfo "MSFT"]) /\
  (result (mcp_get_stockprice Stub.live_world (Stub.ticker_context "tsla"))
     = Return (dumps (VDict [("error", VStr
         "Invalid JSON context provided: Expecting value: line 1 column 1 (char 0)")])) /\
   trace (mcp_get_stockprice Stub.live_world (Stub.ticker_context "tsla"))
     = [QuoteInfo "TSLA"]).
Proof.
  split.
  - refine (stockprice_provider_raises Stub.live_world (Stub.ticker_context "msft")
              [("ticker", VStr "msft")] "msft" _ eq_refl eq_refl _ eq_refl).
    discriminate.
  - refine (stockprice_provider_raises Stub.live_world (Stub.ticker_context "tsla")
              [("ticker", VStr "tsla")] "tsla" _ eq_refl eq_refl _ eq_refl).
    discriminate.
Defined.

Lemma stockprice_report_run w ticker record price fr :
  lookup "currentPrice" record = Some price ->
  stockprice_report w ticker (VDict record) fr
    = (Return (dumps_indent 2 (stock_document ticker (today w) record)), fr).
Proof.
  intros Hp. unfold stockprice_report.
  assert (Ht : truthy (VDict record) = true).
  { destruct record; [discriminate Hp|reflexivity]. }
  unfold bind at 1. rewrite Ht. cbn [negb].
  unfold bind at 1, py at 1, contains_key. rewrite Hp. unfold ret at 1. cbn [negb].
  cbv zeta. unfold stock_document, quote_field, bind, py, get, ret.
  rewrite Hp.
  destruct (lookup "dayLow" record), (lookup "dayHigh" record),
    (lookup "open" record), (lookup "previousClose" record),
    (lookup "marketCap" record), (lookup "longName" record); reflexivity.
Qed.

(** X7. When the provider's record has a ['currentPrice'],
    [mcp_get_stockprice] returns, after its one query, the document of the
    normalized symbol, today's date and the quote, written with an indent
    of two: a field the record lacks is reported as "N/A", a missing
    company name as the symbol itself, and the link is the quote page of
    the symbol. *)
Theorem stockprice_reports_quote w context args ticker record price :
  arguments_of w context = Return (VDict args) ->
  argument "ticker" args = VStr ticker ->
  ticker <> EmptyString ->
  ticker_info w (normalize ticker) = Return (VDict record) ->
  lookup "currentPrice" record = Some price ->
  result (mcp_get_stockprice w context)
    = Return (dumps_indent 2 (VDict [
        ("symbol", VStr (normalize ticker));
        ("date", VStr (today w));
        ("current_price", price);
        ("day_low", quote_field record "dayLow" (VStr "N/A"));
        ("day_high", quote_field record "dayHigh" (VStr "N/A"));
        ("opening_price", quote_field record "open" (VStr "N/A"));
        ("previous_close", quote_field record "previousClose" (VStr "N/A"));
        ("market_cap", quote_field record "marketCap" (VStr "N/A"));
        ("company_name", quote_field record "longName" (VStr (normalize ticker)));
        ("link", VStr ("https://finance.yahoo.com/quote/" ++ normalize ticker ++ "/"))])) /\
  trace (mcp_get_stockprice w context) = [QuoteInfo (normalize ticker)].
Proof.
  intros Ha Ht Hne Hi Hp.
  split; [|exact (stockprice_queries_normalized _ _ _ _ Ha Ht Hne)].
  unfold result, mcp_get_stockprice, try_except.
  rewrite (stockprice_reaches_provider _ _ _ _ Ha Ht Hne).
  unfold bind at 1, py at 1. rewrite Hi.
  rewrite (stockprice_report_run _ _ _ _ _ Hp).
  unfold stock_document, quote_field at 1. now rewrite Hp.
Qed.

Lemma stockprice_reports_quote_witness :
  result (mcp_get_stockprice Stub.live_world (Stub.ticker_context " aapl"))
    = Return (dumps_indent 2 (VDict [
        ("symbol", VStr "AAPL");
        ("date", VStr "2024-05-01");
        ("current_price", VFloat (FFinite "189.84" true));
        ("day_low", VStr "N/A");
        ("day_high", VStr "N/A");
        ("opening_price", VFloat (FFinite "187.0" true));
        ("previous_close", VStr "N/A");
        ("market_cap", VInt 2950000000000);
        ("company_name", VStr "AAPL");
        ("link", VStr "https://finance.yahoo.com/quote/AAPL/")])) /\
  trace (mcp_get_stockprice Stub.live_world (Stub.ticker_context " aapl"))
    = [QuoteInfo "AAPL"].
Proof.
  refine (stockprice_reports_quote Stub.live_world (Stub.ticker_context " aapl")
            [("ticker", VStr " aapl")] " aapl" _ _ eq_refl eq_refl _ eq_refl eq_refl).
  discriminate.
Defined.

Lemma is_lower_upper_char c : is_lower (upper_char c) = false.
Proof. destruct c as [[] [] [] [] [] [] [] []]; reflexivity. Qed.

Lemma has_lower_upper s : has_lower (Text.upper s) = false.
Proof.
  induction s as [|c s IH]; [reflexivity|].
  cbn [Text.upper has_lower]. now rewrite is_lower_upper_char, IH.
Qed.

Lemma has_lower_lstrip s : has_lower s = false -> has_lower (lstrip s) = false.
Proof.
  induction s as [|c s IH]; [reflexivity|].
  cbn [lstrip]. destruct (is_space c); [|easy].
  cbn [has_lower]. intros H. apply IH. now destruct (is_lower c).
Qed.

Lemma has_lower_rstrip s : has_lower s = false -> has_lower (rstrip s) = false.
Proof.
  induction s as [|c s IH]; [reflexivity|].
  cbn [has_lower rstrip]. intros H.
  destruct (is_lower c) eqn:Ec; [discriminate H|]. cbn [orb] in H.
  specialize (IH H). destruct (rstrip s) as [|d r].
  - destruct (is_space c); [reflexivity|]. cbn [has_lower]. now rewrite Ec.
  - cbn [has_lower] in *. now rewrite Ec.
Qed.

Lemma ends_with_space_rstrip s : ends_with_space (rstrip s) = false.
Proof.
  induction s as [|c s IH]; [reflexivity|].
  cbn [rstrip]. destruct (rstrip s) as [|d r].
  - destruct (is_space c) eqn:Ec; [reflexivity|]. cbn [ends_with_space]. exact Ec.
  - exact IH.
Qed.

Lemma starts_with_space_strip s : starts_with_space (strip s) = false.
Proof.
  unfold strip. destruct (lstrip_head s) as [E|(c & s' & E & Ec)]; rewrite E.
  - reflexivity.
  - rewrite (rstrip_visible_head _ _ Ec). exact Ec.
Qed.

Lemma normalize_shape ticker :
  has_lower (normalize ticker) = false /\
  starts_with_space (normalize ticker) = false /\
  ends_with_space (normalize ticker) = false.
Proof.
  unfold normalize. split; [|split].
  - unfold strip. apply has_lower_rstrip, has_lower_lstrip, has_lower_upper.
  - apply starts_with_space_strip.
  - unfold strip. apply ends_with_space_rstrip.
Qed.

(** X8. Whatever text the ticker is, the symbol [mcp_get_stockprice] asks
    the provider for has no letter [a]..[z] and no white space at either
    end. *)
Theorem stockprice_queried_symbol_is_clean w context args ticker :
  arguments_of w context = Return (VDict args) ->
  argument "ticker" args = VStr ticker ->
  ticker <> EmptyString ->
  exists symbol,
    trace (mcp_get_stockprice w context) = [QuoteInfo symbol] /\
    has_lower symbol = false /\
    starts_with_space symbol = false /\
    ends_with_space symbol = false.
Proof.
  intros Ha Ht Hne. exists (normalize ticker).
  split; [exact (stockprice_queries_normalized _ _ _ _ Ha Ht Hne)|].
  apply normalize_shape.
Qed.

Lemma stockprice_queried_symbol_is_clean_witness :
  exists symbol,
    trace (mcp_get_stockprice Stub.live_world (Stub.ticker_context "  brk.b "))
      = [QuoteInfo symbol] /\
    has_lower symbol = false /\
    starts_with_space symbol = false /\
    ends_with_space symbol = false.
Proof.
  refine (stockprice_queried_symbol_is_clean Stub.live_world
            (Stub.ticker_context "  brk.b ") [("ticker", VStr "  brk.b ")] "  brk.b "
            eq_refl eq_refl _).
  discriminate.
Defined.

(** *** Weather alerts *)

(** X9. Once the argument map is read, [mcp_get_weatheralerts] makes
    exactly one HTTP GET, to the alerts URL that ends in [str(state)],
    whatever [state] is and however the handler ends. *)
Theorem alerts_makes_one_call w context args :
  arguments_of w context = Return (VDict args) ->
  trace (mcp_get_weatheralerts w context)
    = [HttpGet (VStr ("https://api.weather.gov/alerts/active/area/"
                        ++ str (argument "state" args)))].
Proof. intros Ha. exact (alerts_trace _ _ _ Ha). Qed.

Lemma alerts_makes_one_call_witness :
  trace (mcp_get_weatheralerts Stub.odd_alerts_world (jtext "{'arguments': {'state': 36}}"))
    = [HttpGet (VStr "https://api.weather.gov/alerts/active/area/36")].
Proof.
  exact (alerts_makes_one_call Stub.odd_alerts_world
           (jtext "{'arguments': {'state': 36}}") [("state", VInt 36)] eq_refl).
Defined.

(** X10. In the two weather handlers nothing catches what happens before
    the fetch: when reading the argument map raises ([json.loads] rejects
    the context, or the context is not an object), the handler raises that
    exception to the host and makes no call. *)
Theorem weather_handlers_raise_before_fetch w context e :
  arguments_of w context = Raise e ->
  (result (mcp_get_weatheralerts w context) = Raise e /\
   trace (mcp_get_weatheralerts w context) = []) /\
  (result (mcp_get_weatherforecast w context) = Raise e /\
   trace (mcp_get_weatherforecast w context) = []).
Proof.
  unfold arguments_of. intros H.
  assert (Ha : mcp_get_weatheralerts w context start = (Raise e, start)).
  { unfold mcp_get_weatheralerts. unfold bind at 1, py at 1.
    destruct (json_loads w context) as [mcp_data|e']; [|now inversion H].
    unfold bind at 1, py at 1. now rewrite H. }
  assert (Hf : mcp_get_weatherforecast w context start = (Raise e, start)).
  { unfold mcp_get_weatherforecast. unfold bind at 1, py at 1.
    destruct (json_loads w context) as [mcp_data|e']; [|now inversion H].
    unfold bind at 1, py at 1. now rewrite H. }
  unfold result, trace. rewrite Ha, Hf. repeat split.
Qed.

Lemma weather_handlers_raise_before_fetch_witness :
  (result (mcp_get_weatheralerts Stub.alerts_world "[]")
     = Raise (Exn AttributeError "'list' object has no attribute 'get'") /\
   trace (mcp_get_weatheralerts Stub.alerts_world "[]") = []) /\
  (result (mcp_get_weatherforecast Stub.alerts_world "[]")
     = Raise (Exn AttributeError "'list' object has no attribute 'get'") /\
   trace (mcp_get_weatherforecast Stub.alerts_world "[]") = []).
Proof.
  exact (weather_handlers_raise_before_fetch Stub.alerts_world "[]" _ eq_refl).
Defined.

(** [format_alert] neither reads nor changes the state it runs in. *)
Lemma format_alert_pure feature fr :
  format_alert feature fr = (result (format_alert feature), fr).
Proof.
  unfold result, format_alert.
  unfold bind at 1, py at 1. unfold bind at 6, py at 6.
  destruct (getitem feature "properties") as [props|e]; [|reflexivity].
  unfold bind, py, get, ret.
  destruct props; try reflexivity.
  destruct (lookup "event" entries), (lookup "areaDesc" entries),
    (lookup "severity" entries), (lookup "description" entries),
    (lookup "instruction" entries); reflexivity.
Qed.

Lemma for_each_format_alert_raises good propss bad rest e fr :
  Forall2 has_properties good propss ->
  result (format_alert bad) = Raise e ->
  for_each format_alert (good ++ bad :: rest)%list fr = (Raise e, fr).
Proof.
  intros Hg Hb. induction Hg as [|feature props good propss Hf _ IH].
  - cbn [app for_each]. unfold bind at 1. now rewrite format_alert_pure, Hb.
  - cbn [app for_each]. unfold bind at 1. rewrite (format_alert_run _ _ _ Hf).
    unfold bind at 1. now rewrite IH.
Qed.

(** X11. In [mcp_get_weatheralerts] one feature that [format_alert]
    cannot format fails the whole answer: when the features before it are
    well formed and [format_alert] raises on it, the handler raises that
    exception to the host, after its one call, instead of returning the
    blocks it has. *)
Theorem alerts_malformed_feature_raises w context args doc good propss bad rest e :
  arguments_of w context = Return (VDict args) ->
  http_get_json w 0 (alerts_url (argument "state" args)) = Return (VDict doc) ->
  lookup "features" doc = Some (VList (good ++ bad :: rest)%list) ->
  Forall2 has_properties good propss ->
  result (format_alert bad) = Raise e ->
  result (mcp_get_weatheralerts w context) = Raise e /\
  trace (mcp_get_weatheralerts w context)
    = [HttpGet (VStr (alerts_url (argument "state" args)))].
Proof.
  intros Ha Hd Hf Hg Hb. split; [|exact (alerts_trace _ _ _ Ha)].
  unfold result at 1. rewrite (weatheralerts_unfold _ _ _ Ha).
  cbv zeta. rewrite (fetched_return _ _ _ _ Hd).
  unfold bind at 1. destruct doc as [|entry doc']; [discriminate|].
  cbn [truthy negb]. unfold bind at 1, py at 1, contains_key. rewrite Hf.
  unfold ret at 1. cbn [negb].
  unfold bind at 1, py at 1, getitem. rewrite Hf.
  assert (Ht : truthy (VList (good ++ bad :: rest)%list) = true).
  { now destruct good. }
  rewrite Ht. cbn [negb].
  unfold bind at 1, py at 1. unfold bind at 1, py at 1, iter.
  unfold bind at 1. now rewrite (for_each_format_alert_raises _ _ _ _ _ _ Hg Hb).
Qed.

Lemma alerts_malformed_feature_raises_witness :
  result (mcp_get_weatheralerts Stub.odd_alerts_world (Stub.state_context "ZZ"))
    = Raise (Exn KeyError "'properties'") /\
  trace (mcp_get_weatheralerts Stub.odd_alerts_world (Stub.state_context "ZZ"))
    = [HttpGet (VStr (alerts_url (argument "state" [("state", VStr "ZZ")])))].
Proof.
  refine (alerts_malformed_feature_raises Stub.odd_alerts_world
            (Stub.state_context "ZZ") [("state", VStr "ZZ")] _
            [VDict [("properties", VDict [("event", VStr "Frost Advisory")])]]
            [[("event", VStr "Frost Advisory")]]
            (VDict [("id", VStr "urn:oid:2.49.0.1.840.0")]) []
            _ eq_refl eq_refl eq_refl _ eq_refl).
  repeat constructor.
Defined.

(** X12. [format_alert] fills in a default only for a key that is absent:
    a description and an instruction that are present and [null] are
    printed as [None], not as "No description available" and "No specific
    instructions provided". *)
Theorem format_alert_prints_null_as_None feature props :
  has_properties feature props ->
  lookup "description" props = Some VNone ->
  lookup "instruction" props = Some VNone ->
  result (format_alert feature)
    = Return (alert_block (field props "event" "Unknown")
                (field props "areaDesc" "Unknown")
                (field props "severity" "Unknown") "None" "None").
Proof.
  intros Hp Hd Hi. unfold result. rewrite (format_alert_run _ _ _ Hp).
  cbn [fst]. unfold alert_text, field at 4 5. now rewrite Hd, Hi.
Qed.

Lemma format_alert_prints_null_as_None_witness :
  result (format_alert (VDict [("properties",
            VDict [("event", VStr "Heat Advisory"); ("description", VNone);
                   ("instruction", VNone)])]))
    = Return (alert_block "Heat Advisory" "Unknown" "Unknown" "None" "None").
Proof.
  exact (format_alert_prints_null_as_None
           (VDict [("properties",
              VDict [("event", VStr "Heat Advisory"); ("description", VNone);
                     ("instruction", VNone)])])
           [("event", VStr "Heat Advisory"); ("description", VNone);
            ("instruction", VNone)] eq_refl eq_refl eq_refl).
Defined.

(** X13. [format_alert] raises on a feature it cannot read: a [KeyError]
    naming ['properties'] when the feature is an object without that key,
    and the [AttributeError] of [.get] when [properties] is not an
    object. *)
Theorem format_alert_raises_without_properties feature :
  (forall entries,
     feature = VDict entries -> lookup "properties" entries = None ->
     result (format_alert feature) = Raise (Exn KeyError "'properties'")) /\
  (forall props,
     getitem feature "properties" = Return props -> is_object props = false ->
     result (format_alert feature)
       = Raise (Exn AttributeError
                  ("'" ++ type_name props ++ "' object has no attribute 'get'"))).
Proof.
  split.
  - intros entries -> Hl. unfold result, format_alert, bind, py, getitem.
    now rewrite Hl.
  - intros props Hp Hn. unfold result, format_alert.
    unfold bind at 1, py at 1. rewrite Hp.
    destruct props; try discriminate Hn; reflexivity.
Qed.

Lemma format_alert_raises_without_properties_witness :
  result (format_alert (VDict [("id", VStr "a1")]))
    = Raise (Exn KeyError "'properties'") /\
  result (format_alert (VDict [("properties", VNone)]))
    = Raise (Exn AttributeError "'NoneType' object has no attribute 'get'").
Proof.
  split.
  - exact (proj1 (format_alert_raises_without_properties (VDict [("id", VStr "a1")]))
             _ eq_refl eq_refl).
  - exact (proj2 (format_alert_raises_without_properties
                    (VDict [("properties", VNone)])) VNone eq_refl eq_refl).
Defined.

(** *** Weather forecast *)

(** X14. In [mcp_get_weatherforecast], when the points document gives a
    forecast link that is not text (a number, [null], an object), the
    second [client.get] is refused inside its [try] and the handler
    returns "Unable to fetch detailed forecast.". *)
Theorem forecast_link_not_text w context args points link :
  arguments_of w context = Return (VDict args) ->
  http_get_json w 0 (points_url_of args) = Return points ->
  truthy points = true ->
  forecast_link points = Return link ->
  (forall text, link <> VStr text) ->
  result (mcp_get_weatherforecast w context)
    = Return "Unable to fetch detailed forecast." /\
  trace (mcp_get_weatherforecast w context)
    = [HttpGet (VStr (points_url_of args)); HttpGet link].
Proof.
  intros Ha Hp Ht Hl Hn.
  assert (Hs := forecast_second_step w context args link Ha).
  rewrite (fetched_return _ _ _ _ Hp) in Hs. specialize (Hs Ht Hl).
  unfold result, trace. rewrite Hs.
  split; unfold bind at 1; rewrite (fetch_not_text _ _ _ Hn); reflexivity.
Qed.

Lemma forecast_link_not_text_witness :
  result (mcp_get_weatherforecast Stub.odd_forecast_world (Stub.place_context "1" "1"))
    = Return "Unable to fetch detailed forecast." /\
  trace (mcp_get_weatherforecast Stub.odd_forecast_world (Stub.place_context "1" "1"))
    = [HttpGet (VStr (points_url_of [("latitude", VStr "1"); ("longitude", VStr "1")]));
       HttpGet (VInt 7)].
Proof.
  refine (forecast_link_not_text Stub.odd_forecast_world (Stub.place_context "1" "1")
            [("latitude", VStr "1"); ("longitude", VStr "1")] _ (VInt 7)
            eq_refl eq_refl eq_refl eq_refl _).
  discriminate.
Defined.

(** X15. In [mcp_get_weatherforecast], when the points call returns data
    from which [["properties"]["forecast"]] cannot be read, the handler
    raises that [KeyError] or [TypeError] to the host after its one call,
    and makes no second call. *)
Theorem forecast_points_without_link w context args points e :
  arguments_of w context = Return (VDict args) ->
  http_get_json w 0 (points_url_of args) = Return points ->
  truthy points = true ->
  forecast_link points = Raise e ->
  result (mcp_get_weatherforecast w context) = Raise e /\
  trace (mcp_get_weatherforecast w context) = [HttpGet (VStr (points_url_of args))].
Proof.
  intros Ha Hp Ht Hl.
  assert (Hr : mcp_get_weatherforecast w context start
               = (Raise e, Frame [HttpGet (VStr (points_url_of args))] [])).
  { rewrite (weatherforecast_unfold _ _ _ Ha). cbv zeta.
    rewrite (fetched_return _ _ _ _ Hp), Ht. cbn [negb].
    unfold forecast_link in Hl. unfold bind at 1, py at 1.
    destruct (getitem points "properties") as [properties|e'].
    - unfold bind at 1, py at 1. now rewrite Hl.
    - now inversion Hl. }
  unfold result, trace. rewrite Hr. split; reflexivity.
Qed.

Lemma forecast_points_without_link_witness :
  result (mcp_get_weatherforecast Stub.odd_forecast_world (Stub.place_context "2" "2"))
    = Raise (Exn KeyError "'forecast'") /\
  trace (mcp_get_weatherforecast Stub.odd_forecast_world (Stub.place_context "2" "2"))
    = [HttpGet (VStr (points_url_of [("latitude", VStr "2"); ("longitude", VStr "2")]))].
Proof.
  exact (forecast_points_without_link Stub.odd_forecast_world
           (Stub.place_context "2" "2")
           [("latitude", VStr "2"); ("longitude", VStr "2")] _ _
           eq_refl eq_refl eq_refl eq_refl).
Defined.

(** X16. Once the argument map is read, [mcp_get_weatherforecast] makes
    one or two HTTP GETs and no more: the first to the points URL that
    [str(latitude)] and [str(longitude)] give, and a second one exactly
    when the points data is truthy and has a forecast link, to that
    link. *)
Theorem forecast_makes_two_calls_at_most w context args :
  arguments_of w context = Return (VDict args) ->
  let first := "https://api.weather.gov/points/" ++ str (argument "latitude" args)
                 ++ "," ++ str (argument "longitude" args) in
  let points := fetched w 0 first in
  trace (mcp_get_weatherforecast w context)
    = HttpGet (VStr first)
        :: (if truthy points
            then match forecast_link points with
                 | Return link => [HttpGet link]
                 | Raise _ => []
                 end
            else []).
Proof.
  intros Ha first points. subst first points.
  change ("https://api.weather.gov/points/" ++ str (argument "latitude" args)
            ++ "," ++ str (argument "longitude" args)) with (points_url_of args).
  unfold trace. rewrite (weatherforecast_unfold _ _ _ Ha). cbv zeta.
  destruct (truthy (fetched w 0 (points_url_of args))); [|reflexivity].
  cbn [negb]. unfold forecast_link. unfold bind at 1, py at 1.
  destruct (getitem (fetched w 0 (points_url_of args)) "properties")
    as [properties|e]; [|reflexivity].
  unfold bind at 1, py at 1.
  destruct (getitem properties "forecast") as [link|e]; [|reflexivity].
  unfold bind at 1.
  destruct (fetch_calls w link (Frame [HttpGet (VStr (points_url_of args))] []))
    as (data & ->).
  match goal with |- calls (snd (?m ?fr)) = _ => assert (Hq : quiet m) end.
  { quiet_steps. }
  now rewrite Hq.
Qed.

Lemma forecast_makes_two_calls_at_most_witness :
  trace (mcp_get_weatherforecast Stub.forecast_world (Stub.place_context "39" "-77"))
    = [HttpGet (VStr "https://api.weather.gov/points/39,-77");
       HttpGet (VStr "https://api.weather.gov/gridpoints/LWX/2,2/forecast")].
Proof.
  exact (forecast_makes_two_calls_at_most Stub.forecast_world
           (Stub.place_context "39" "-77")
           [("latitude", VStr "39"); ("longitude", VStr "-77")] eq_refl).
Defined.

(** The handler from the periods on, for a forecast document that was
    fetched. *)
Lemma forecast_third_step w context args points second forecast periods :
  arguments_of w context = Return (VDict args) ->
  http_get_json w 0 (points_url_of args) = Return points ->
  truthy points = true ->
  forecast_link points = Return (VStr second) ->
  http_get_json w 1 second = Return forecast ->
  truthy forecast = true ->
  periods_of forecast = Return periods ->
  mcp_get_weatherforecast w context start =
    (shown <- py (iter_prefix 5 periods) ;;
     forecasts <- for_each format_period shown ;;
     ret (join separator forecasts))%run
      (Frame [HttpGet (VStr (points_url_of args)); HttpGet (VStr second)] []).
Proof.
  intros Ha Hp Ht Hl Hf Htf Hps.
  assert (Hs := forecast_second_step w context args (VStr second) Ha).
  rewrite (fetched_return _ _ _ _ Hp) in Hs. rewrite (Hs Ht Hl).
  unfold bind at 1. rewrite fetch_run. cbn [calls length locals app].
  rewrite (fetched_return _ _ _ _ Hf), Htf. cbn [negb].
  unfold periods_of in Hps. unfold bind at 1, py at 1.
  destruct (getitem forecast "properties") as [properties|e]; [|discriminate].
  unfold bind at 1, py at 1. now rewrite Hps.
Qed.

(** X17. A forecast that is fetched but has an empty list of periods
    is not reported as a failure: [mcp_get_weatherforecast] returns the
    empty text. *)
Theorem forecast_without_periods_is_empty_text w context args points second forecast :
  arguments_of w context = Return (VDict args) ->
  http_get_json w 0 (points_url_of args) = Return points ->
  truthy points = true ->
  forecast_link points = Return (VStr second) ->
  http_get_json w 1 second = Return forecast ->
  truthy forecast = true ->
  periods_of forecast = Return (VList []) ->
  result (mcp_get_weatherforecast w context) = Return EmptyString.
Proof.
  intros Ha Hp Ht Hl Hf Htf Hps. unfold result.
  now rewrite (forecast_third_step _ _ _ _ _ _ _ Ha Hp Ht Hl Hf Htf Hps).
Qed.

Lemma forecast_without_periods_is_empty_text_witness :
  result (mcp_get_weatherforecast Stub.odd_forecast_world (Stub.place_context "3" "3"))
    = Return EmptyString.
Proof.
  exact (forecast_without_periods_is_empty_text Stub.odd_forecast_world
           (Stub.place_context "3" "3")
           [("latitude", VStr "3"); ("longitude", VStr "3")] _ _ _
           eq_refl eq_refl eq_refl eq_refl eq_refl eq_refl eq_refl).
Defined.

(** [format_period] neither reads nor changes the state it runs in. *)
Lemma format_period_pure period fr :
  format_period period fr = (result (format_period period), fr).
Proof.
  unfold result, format_period, bind, py, ret.
  destruct (getitem period "name"); [|reflexivity].
  destruct (getitem period "temperature"); [|reflexivity].
  destruct (getitem period "temperatureUnit"); [|reflexivity].
  destruct (getitem period "windSpeed"); [|reflexivity].
  destruct (getitem period "windDirection"); [|reflexivity].
  destruct (getitem period "detailedForecast"); reflexivity.
Qed.

Lemma for_each_format_period_raises good blocks bad rest e fr :
  Forall2 formats_as good blocks ->
  result (format_period bad) = Raise e ->
  for_each format_period (good ++ bad :: rest)%list fr = (Raise e, fr).
Proof.
  intros Hg Hb. induction Hg as [|period block good blocks Hf _ IH].
  - cbn [app for_each]. unfold bind at 1. now rewrite format_period_pure, Hb.
  - cbn [app for_each]. unfold bind at 1. rewrite (format_period_run _ _ _ Hf).
    unfold bind at 1. now rewrite IH.
Qed.

(** X18. In [mcp_get_weatherforecast] one period among the first five
    that cannot be formatted (a field is missing, say) fails the whole
    answer: the handler raises that exception to the host instead of
    returning the blocks of the periods before it. *)
Theorem forecast_malformed_period_raises
    w context args points second forecast periods good blocks bad rest e :
  arguments_of w context = Return (VDict args) ->
  http_get_json w 0 (points_url_of args) = Return points ->
  truthy points = true ->
  forecast_link points = Return (VStr second) ->
  http_get_json w 1 second = Return forecast ->
  truthy forecast = true ->
  periods_of forecast = Return (VList periods) ->
  firstn 5 periods = (good ++ bad :: rest)%list ->
  Forall2 formats_as good blocks ->
  result (format_period bad) = Raise e ->
  result (mcp_get_weatherforecast w context) = Raise e.
Proof.
  intros Ha Hp Ht Hl Hf Htf Hps Hfirst Hg Hb. unfold result at 1.
  rewrite (forecast_third_step _ _ _ _ _ _ _ Ha Hp Ht Hl Hf Htf Hps).
  unfold bind at 1, py at 1, iter_prefix. rewrite Hfirst.
  unfold bind at 1. now rewrite (for_each_format_period_raises _ _ _ _ _ _ Hg Hb).
Qed.

Lemma forecast_malformed_period_raises_witness :
  result (mcp_get_weatherforecast Stub.odd_forecast_world (Stub.place_context "4" "4"))
    = Raise (Exn KeyError "'temperature'").
Proof.
  refine (forecast_malformed_period_raises Stub.odd_forecast_world
            (Stub.place_context "4" "4")
            [("latitude", VStr "4"); ("longitude", VStr "4")] _ _ _
            [Stub.period 1; VDict [("name", VStr "Day 2")]; Stub.period 3]
            [Stub.period 1] [Stub.block 1] (VDict [("name", VStr "Day 2")])
            [Stub.period 3] _
            eq_refl eq_refl eq_refl eq_refl eq_refl eq_refl eq_refl eq_refl _ eq_refl).
  repeat constructor. eexists. split; reflexivity.
Defined.

(** *** The request helper *)

(** X19. [make_nws_request] never raises: it makes one HTTP GET to the
    URL and returns the document, or [None] when the request, the status
    check or the decoding raises. *)
Theorem make_nws_request_never_raises w url :
  result (make_nws_request w url)
    = Return (match http_get_json w 0 url with
              | Return data => data
              | Raise _ => VNone
              end) /\
  trace (make_nws_request w url) = [HttpGet (VStr url)].
Proof.
  unfold result, trace, make_nws_request.
  change (try_except (client_get_json w (VStr url)) (fun _ => ret VNone))
    with (fetch w (VStr url)).
  rewrite fetch_run. split; reflexivity.
Qed.

(** *** Tool descriptors *)

Import ToolSchema.

Lemma append_assoc (a b c : string) : (a ++ b) ++ c = a ++ (b ++ c).
Proof. induction a as [|x a IH]; [reflexivity|]. cbn. now rewrite IH. Qed.

Lemma append_assoc_nil (a : string) : a ++ EmptyString = a.
Proof. induction a as [|x a IH]; [reflexivity|]. cbn. now rewrite IH. Qed.

Lemma length_append (a b : string) :
  String.length (a ++ b) = (String.length a + String.length b)%nat.
Proof. induction a as [|x a IH]; [reflexivity|]. cbn. now rewrite IH. Qed.

Lemma scan_escape_char c t :
  plain_char c = true ->
  scan_string (escape_char c ++ t)
    = match scan_string t with
      | Some (u, r) => Some (String c u, r)
      | None => None
      end.
Proof.
  destruct c as [[] [] [] [] [] [] [] []]; intros H; vm_compute in H;
    try discriminate H; clear H;
    simpl; destruct (scan_string t) as [[u r]|]; reflexivity.
Qed.

Lemma scan_escape s t :
  plain s = true -> scan_string (escape s ++ dquote ++ t) = Some (s, t).
Proof.
  induction s as [|c s IH]; [reflexivity|].
  cbn [plain escape]. intros H. apply andb_prop in H. destruct H as (Hc & Hs).
  rewrite append_assoc, (scan_escape_char _ _ Hc). now rewrite (IH Hs).
Qed.

Lemma quoted_append s t : quoted s ++ t = String "034" (escape s ++ dquote ++ t).
Proof. unfold quoted, dquote. cbn [append]. now rewrite append_assoc. Qed.

Lemma skip_ws_quoted s t : skip_ws (quoted s ++ t) = quoted s ++ t.
Proof. now rewrite quoted_append. Qed.

Lemma scan_quoted fuel s t :
  plain s = true -> scan_value (S fuel) (quoted s ++ t) = Some (VStr s, t).
Proof.
  intros H. rewrite quoted_append.
  change (scan_value (S fuel) (String "034" (escape s ++ dquote ++ t)))
    with (match scan_string (escape s ++ dquote ++ t) with
          | Some (u, rest) => Some (VStr u, rest)
          | None => None
          end).
  now rewrite (scan_escape _ _ H).
Qed.

(** One member of an object that is followed by another. *)
Lemma scan_member_more fuel acc k v t :
  plain k = true -> plain v = true ->
  scan_members (S (S fuel)) acc (quoted k ++ ": " ++ quoted v ++ ", " ++ t)
    = scan_members (S fuel) (dict_set k (VStr v) acc) (skip_ws t).
Proof.
  intros Hk Hv. rewrite quoted_append.
  change (scan_members (S (S fuel)) acc
            (String "034" (escape k ++ dquote ++ ": " ++ quoted v ++ ", " ++ t)))
    with (match scan_string (escape k ++ dquote ++ ": " ++ quoted v ++ ", " ++ t) with
          | Some (k', rest) =>
              match skip_ws rest with
              | String ":" rest' =>
                  match scan_value (S fuel) (skip_ws rest') with
                  | Some (x, rest'') =>
                      match skip_ws rest'' with
                      | String "," more =>
                          scan_members (S fuel) (dict_set k' x acc) (skip_ws more)
                      | String "}" more => Some (VDict (dict_set k' x acc), more)
                      | _ => None
                      end
                  | None => None
                  end
              | _ => None
              end
          | None => None
          end).
  rewrite (scan_escape _ _ Hk).
  change (skip_ws (": " ++ quoted v ++ ", " ++ t))
    with (String ":" (" " ++ quoted v ++ ", " ++ t)).
  cbv iota beta.
  change (skip_ws (" " ++ quoted v ++ ", " ++ t)) with (skip_ws (quoted v ++ ", " ++ t)).
  rewrite skip_ws_quoted, (scan_quoted _ _ _ Hv).
  reflexivity.
Qed.

(** The last member of an object. *)
Lemma scan_member_last fuel acc k v t :
  plain k = true -> plain v = true ->
  scan_members (S (S fuel)) acc (quoted k ++ ": " ++ quoted v ++ "}" ++ t)
    = Some (VDict (dict_set k (VStr v) acc), t).
Proof.
  intros Hk Hv. rewrite quoted_append.
  change (scan_members (S (S fuel)) acc
            (String "034" (escape k ++ dquote ++ ": " ++ quoted v ++ "}" ++ t)))
    with (match scan_string (escape k ++ dquote ++ ": " ++ quoted v ++ "}" ++ t) with
          | Some (k', rest) =>
              match skip_ws rest with
              | String ":" rest' =>
                  match scan_value (S fuel) (skip_ws rest') with
                  | Some (x, rest'') =>
                      match skip_ws rest'' with
                      | String "," more =>
                          scan_members (S fuel) (dict_set k' x acc) (skip_ws more)
                      | String "}" more => Some (VDict (dict_set k' x acc), more)
                      | _ => None
                      end
                  | None => None
                  end
              | _ => None
              end
          | None => None
          end).
  rewrite (scan_escape _ _ Hk).
  change (skip_ws (": " ++ quoted v ++ "}" ++ t))
    with (String ":" (" " ++ quoted v ++ "}" ++ t)).
  cbv iota beta.
  change (skip_ws (" " ++ quoted v ++ "}" ++ t)) with (skip_ws (quoted v ++ "}" ++ t)).
  rewrite skip_ws_quoted, (scan_quoted _ _ _ Hv).
  reflexivity.
Qed.

(** The text [json.dumps] writes for one descriptor, spelled out. *)
Lemma dumps_to_dict level prop t :
  dumps_at None level (to_dict prop) ++ t
    = String "{" (quoted "propertyName" ++ ": " ++ quoted (propertyName prop) ++ ", "
        ++ quoted "propertyType" ++ ": " ++ quoted (propertyType prop) ++ ", "
        ++ quoted "description" ++ ": " ++ quoted (description prop) ++ "}" ++ t).
Proof.
  unfold to_dict. cbn [dumps_at map enclose join].
  change (dumps_at None (S level) (VStr (propertyName prop)))
    with (quoted (propertyName prop)).
  change (dumps_at None (S level) (VStr (propertyType prop)))
    with (quoted (propertyType prop)).
  change (dumps_at None (S level) (VStr (description prop)))
    with (quoted (description prop)).
  rewrite !append_assoc. reflexivity.
Qed.

Lemma scan_to_dict fuel level prop t :
  plain_property prop ->
  scan_value (5 + fuel) (dumps_at None level (to_dict prop) ++ t)
    = Some (to_dict prop, t).
Proof.
  intros (Hn & Ht & Hd). rewrite dumps_to_dict.
  set (body := quoted "propertyName" ++ _).
  change (scan_value (5 + fuel) (String "{" body))
    with (match skip_ws body with
          | String "}" rest => Some (VDict [], rest)
          | body' => scan_members (4 + fuel) [] body'
          end).
  subst body. rewrite skip_ws_quoted.
  rewrite quoted_append at 1. cbv iota beta. rewrite <- quoted_append.
  change (4 + fuel)%nat with (S (S (S (S fuel)))).
  rewrite scan_member_more by (reflexivity || assumption).
  rewrite skip_ws_quoted.
  rewrite scan_member_more by (reflexivity || assumption).
  rewrite skip_ws_quoted.
  rewrite scan_member_last by (reflexivity || assumption).
  reflexivity.
Qed.

Lemma scan_items_step fuel acc s :
  scan_items (S fuel) acc s
    = match scan_value fuel s with
      | Some (x, rest) =>
          match skip_ws rest with
          | String "," rest' => scan_items fuel (acc ++ [x])%list (skip_ws rest')
          | String "]" rest' => Some (VList (acc ++ [x])%list, rest')
          | _ => None
          end
      | None => None
      end.
Proof. reflexivity. Qed.

Lemma skip_ws_to_dict level prop t :
  skip_ws (dumps_at None level (to_dict prop) ++ t)
    = dumps_at None level (to_dict prop) ++ t.
Proof. now rewrite dumps_to_dict. Qed.

(** The text of the descriptors [props], one after the other. *)
Lemma scan_items_descriptors props :
  forall prop acc fuel t,
    plain_property prop -> Forall plain_property props ->
    (length props + 6 <= fuel)%nat ->
    scan_items fuel acc
      (join ", " (map (dumps_at None 1) (map to_dict (prop :: props))) ++ "]" ++ t)
      = Some (VList (acc ++ map to_dict (prop :: props))%list, t).
Proof.
  induction props as [|next props IH]; intros prop acc fuel t Hp Hps Hfuel.
  - destruct fuel as [|fuel]; [cbn in Hfuel; lia|].
    replace fuel with (5 + (fuel - 5))%nat by (cbn in Hfuel; lia).
    rewrite scan_items_step. cbn [map join].
    now rewrite (scan_to_dict _ _ _ _ Hp).
  - destruct fuel as [|fuel]; [cbn in Hfuel; lia|].
    assert (Hf : (length props + 6 <= fuel)%nat) by (cbn in Hfuel; lia).
    rewrite scan_items_step.
    change (join ", " (map (dumps_at None 1) (map to_dict (prop :: next :: props))))
      with (dumps_at None 1 (to_dict prop) ++ ", "
              ++ join ", " (map (dumps_at None 1) (map to_dict (next :: props)))).
    rewrite !append_assoc.
    replace fuel with (5 + (fuel - 5))%nat at 1 by lia.
    rewrite (scan_to_dict _ _ _ _ Hp).
    set (tail := join ", " _ ++ "]" ++ t).
    change (skip_ws (", " ++ tail)) with (String "," (" " ++ tail)).
    cbv iota beta. change (skip_ws (" " ++ tail)) with (skip_ws tail).
    assert (Hskip : skip_ws tail = tail).
    { subst tail. cbn [map]. destruct props as [|third props'].
      - cbn [join map]. apply skip_ws_to_dict.
      - change (join ", " (dumps_at None 1 (to_dict next)
                  :: map (dumps_at None 1) (map to_dict (third :: props'))))
          with (dumps_at None 1 (to_dict next) ++ ", "
                  ++ join ", " (map (dumps_at None 1) (map to_dict (third :: props')))).
        rewrite !append_assoc. apply skip_ws_to_dict. }
    rewrite Hskip. subst tail.
    rewrite (IH next (acc ++ [to_dict prop])%list fuel t);
      [|now inversion Hps|now inversion Hps|exact Hf].
    now rewrite <- app_assoc.
Qed.

Lemma length_descriptors props :
  (length props
     <= String.length (join ", " (map (dumps_at None 1) (map to_dict props))))%nat.
Proof.
  induction props as [|prop props IH]; [cbn; lia|].
  destruct props as [|next props].
  - cbn [map join]. rewrite <- (append_assoc_nil (dumps_at None 1 (to_dict prop))).
    rewrite dumps_to_dict. cbn [String.length length]. lia.
  - change (join ", " (map (dumps_at None 1) (map to_dict (prop :: next :: props))))
      with (dumps_at None 1 (to_dict prop) ++ ", "
              ++ join ", " (map (dumps_at None 1) (map to_dict (next :: props)))).
    rewrite dumps_to_dict. cbn [String.length]. cbn [length] in *.
    rewrite !length_append. cbn [String.length]. lia.
Qed.

(** The text of one or more descriptors starts with an opening brace. *)
Lemma descriptors_head prop props t :
  exists body,
    join ", " (map (dumps_at None 1) (map to_dict (prop :: props))) ++ t
      = String "{" body.
Proof.
  destruct props as [|next props].
  - cbn [map join]. rewrite dumps_to_dict. eexists. reflexivity.
  - change (join ", " (map (dumps_at None 1) (map to_dict (prop :: next :: props))))
      with (dumps_at None 1 (to_dict prop) ++ ", "
              ++ join ", " (map (dumps_at None 1) (map to_dict (next :: props)))).
    rewrite !append_assoc, dumps_to_dict. eexists. reflexivity.
Qed.

(** X20. The text [json.dumps] writes for a list of tool properties
    (the [toolProperties] of a tool) is JSON that reads back as that list:
    one object per property, in order, with exactly the keys
    [propertyName], [propertyType] and [description] bound to the
    property's three texts. *)
Theorem properties_json_reads_back props :
  Forall plain_property props ->
  decode (properties_json props) = Some (VList (map to_dict props)).
Proof.
  intros Hp. destruct props as [|prop props]; [reflexivity|].
  unfold properties_json, dumps.
  set (items := join ", " (map (dumps_at None 1) (map to_dict (prop :: props)))).
  assert (Htext : dumps_at None 0 (VList (map to_dict (prop :: props)))
                  = String "[" (items ++ "]" ++ EmptyString)).
  { reflexivity. }
  rewrite Htext. unfold decode.
  change (skip_ws (String "[" (items ++ "]" ++ EmptyString)))
    with (String "[" (items ++ "]" ++ EmptyString)).
  assert (Hlen : (length props + 3
                    <= String.length (String "[" (items ++ "]" ++ EmptyString)))%nat).
  { pose proof (length_descriptors (prop :: props)) as H. fold items in H.
    cbn [length] in H. cbn [String.length]. rewrite length_append.
    cbn [String.length append]. lia. }
  destruct (String.length (String "[" (items ++ "]" ++ EmptyString))) as [|len'];
    [lia|].
  change (3 * S (S len'))%nat with (S (S len' + (S (S len') + (S (S len') + 0))))%nat.
  set (fuel := (S len' + (S (S len') + (S (S len') + 0)))%nat).
  assert (Hitems : scan_items fuel [] (items ++ "]" ++ EmptyString)
                   = Some (VList (map to_dict (prop :: props)), EmptyString)).
  { subst items.
    apply (scan_items_descriptors props prop [] fuel EmptyString).
    - now inversion Hp.
    - now inversion Hp.
    - subst fuel. lia. }
  change (scan_value (S fuel) (String "[" (items ++ "]" ++ EmptyString)))
    with (match skip_ws (items ++ "]" ++ EmptyString) with
          | String "]" rest => Some (VList [], rest)
          | body => scan_items fuel [] body
          end).
  destruct (descriptors_head prop props ("]" ++ EmptyString)) as (body & Hbody).
  fold items in Hbody. rewrite Hbody in *.
  change (skip_ws (String "{" body)) with (String "{" body).
  cbv iota beta. now rewrite Hitems.
Qed.

Lemma properties_json_reads_back_witness :
  decode tool_properties_get_latlong_json
    = Some (VList (map to_dict tool_properties_get_latlong_object)).
Proof.
  apply (properties_json_reads_back tool_properties_get_latlong_object).
  repeat constructor.
Defined.

(** *** Error payloads *)

(** X21. The error payload the stock handler returns for a message of
    plain characters is JSON that reads back as an object with the single
    key ["error"] bound to that message. *)
Theorem error_payload_reads_back message :
  plain message = true ->
  decode (error_payload message) = Some (VDict [("error", VStr message)]).
Proof.
  intros Hm. unfold error_payload, dumps.
  assert (Htext : dumps_at None 0 (VDict [("error", VStr message)])
                  = String "{" (quoted "error" ++ ": " ++ quoted message
                                  ++ "}" ++ EmptyString)).
  { cbn [dumps_at map enclose join].
    change (dumps_at None 1 (VStr message)) with (quoted message).
    rewrite !append_assoc. reflexivity. }
  rewrite Htext. unfold decode.
  set (body := quoted "error" ++ _).
  change (skip_ws (String "{" body)) with (String "{" body).
  replace (3 * S (String.length (String "{" body)))%nat
    with (S (S (S (3 * String.length (String "{" body)))))%nat by lia.
  change (scan_value (S (S (S (3 * String.length (String "{" body)))))
            (String "{" body))
    with (match skip_ws body with
          | String "}" rest => Some (VDict [], rest)
          | body' => scan_members (S (S (3 * String.length (String "{" body)))) [] body'
          end).
  subst body. rewrite skip_ws_quoted.
  rewrite quoted_append at 1. cbv iota beta. rewrite <- quoted_append.
  rewrite scan_member_last by (reflexivity || assumption).
  reflexivity.
Qed.

Lemma error_payload_reads_back_witness :
  decode (error_payload "Unable to fetch stock data for ticker symbol: XXXX.")
    = Some (VDict [("error",
              VStr "Unable to fetch stock data for ticker symbol: XXXX.")]).
Proof.
  exact (error_payload_reads_back
           "Unable to fetch stock data for ticker symbol: XXXX." eq_refl).
Defined.

End Behaviour.
